(** * Strategic Priorities Roadmap: the data pipeline of [main.py]

    A shallow embedding of the dashboard script: reading the sheet
    ([load_and_process_data], lines 28-82), the sidebar filters
    (lines 110-120) and the aggregates shown in the main content
    (lines 123-274).

    Conventions of the embedding.
    - A Python [str] is a Rocq [string]; one [ascii] stands for one
      character (code points below 256), so [len], slicing and comparison
      work character by character as in Python.
    - A pandas cell is [NaN], a text or a number ([Cell]).  Numbers are kept
      abstract: their type, their [str()] rendering and the parser behind
      [pd.to_numeric] belong to pandas and form the class [Numeric].
    - An exception is a value of [Error]; code that can raise returns a
      [Result]. *)

From Stdlib Require Import ZArith List String Ascii Bool Lia Arith.
From Stdlib Require Import Permutation Sorted OrderedTypeEx DecimalString.
Import ListNotations.
Open Scope string_scope.

(** ** Exceptions *)

Inductive Error : Type :=
| ValueError                          (* read_excel: not a readable workbook *)
| KeyError (label : string)           (* df[label]: no such column *)
| AttributeError                      (* .str on a column that holds no text *)
| NotASeries (label : string)         (* df[label] selects several columns *)
| TypeError.                          (* a str operation on a number *)

Inductive Result (A : Type) : Type :=
| Ok (a : A)
| Raise (e : Error).
Arguments Ok {A} a.
Arguments Raise {A} e.

Definition bind {A B : Type} (m : Result A) (k : A -> Result B) : Result B :=
  match m with
  | Ok a => k a
  | Raise e => Raise e
  end.

Notation "x <- m ;; k" := (bind m (fun x => k))
  (at level 61, m at next level, right associativity).

Definition succeeded {A : Type} (m : Result A) : bool :=
  match m with Ok _ => true | Raise _ => false end.

(** ** Strings *)

(** [str.isspace] on the characters below 256: tab, line feed, vertical tab,
    form feed, carriage return, the separators 28-31, space, NEL and the
    no-break space. *)
Definition isspace (c : ascii) : bool :=
  let n := nat_of_ascii c in
  (((9 <=? n) && (n <=? 13)) || ((28 <=? n) && (n <=? 32))
   || (n =? 133) || (n =? 160))%nat.

Fixpoint lstrip (s : string) : string :=
  match s with
  | EmptyString => EmptyString
  | String c t => if isspace c then lstrip t else s
  end.

Fixpoint rstrip (s : string) : string :=
  match s with
  | EmptyString => EmptyString
  | String c t =>
      match rstrip t with
      | EmptyString => if isspace c then EmptyString else String c EmptyString
      | u => String c u
      end
  end.

(** [s.strip()] *)
Definition strip (s : string) : string := rstrip (lstrip s).

(** [s[:n]] *)
Definition slice_to (n : nat) (s : string) : string := substring 0 n s.

(** [x in l] for a list of strings *)
Fixpoint str_in (x : string) (l : list string) : bool :=
  match l with
  | [] => false
  | y :: t => (y =? x) || str_in x t
  end.

(** [d.get(k)] on a dict literal, kept as its list of items *)
Fixpoint dict_get {V : Type} (d : list (string * V)) (k : string) : option V :=
  match d with
  | [] => None
  | (k', v) :: t => if k' =? k then Some v else dict_get t k
  end.

(** ** Dates *)

Record date : Type := mkdate { year : Z; month : Z; day : Z }.

Definition is_leap (y : Z) : bool :=
  (((y mod 4 =? 0) && negb (y mod 100 =? 0)) || (y mod 400 =? 0))%Z.

Definition days_in_month (y m : Z) : Z :=
  (if m =? 2 then (if is_leap y then 29 else 28)
   else if (m =? 4) || (m =? 6) || (m =? 9) || (m =? 11) then 30
   else 31)%Z.

Definition valid_date (d : date) : Prop :=
  (1 <= month d <= 12 /\ 1 <= day d <= days_in_month (year d) (month d))%Z.

Definition date_leb (a b : date) : bool :=
  ((year a <? year b)
   || ((year a =? year b)
       && ((month a <? month b) || ((month a =? month b) && (day a <=? day b)))))%Z.

Definition date_ltb (a b : date) : bool :=
  ((year a <? year b)
   || ((year a =? year b)
       && ((month a <? month b) || ((month a =? month b) && (day a <? day b)))))%Z.

(** [ts - pd.DateOffset(months=n)]: the month is moved back by [n] and the
    day is kept, clipped to the last day of the month reached. *)
Definition sub_months (d : date) (n : Z) : date :=
  let t := (12 * year d + (month d - 1) - n)%Z in
  let y := (t / 12)%Z in
  let m := (t mod 12 + 1)%Z in
  mkdate y m (Z.min (day d) (days_in_month y m)).

(** Whole calendar months from [a] to [b]. *)
Definition months_between (a b : date) : Z :=
  ((12 * year b + month b) - (12 * year a + month a))%Z.

Definition digit_of (c : ascii) : option Z :=
  let n := nat_of_ascii c in
  if ((48 <=? n) && (n <=? 57))%nat then Some (Z.of_nat n - 48)%Z else None.

Fixpoint digits_value (acc : Z) (s : string) : option Z :=
  match s with
  | EmptyString => Some acc
  | String c t =>
      match digit_of c with
      | Some v => digits_value (10 * acc + v)%Z t
      | None => None
      end
  end.

(** The ISO form [YYYY-MM-DD], the only form the quarter table holds. *)
Definition parse_iso_date (s : string) : option date :=
  if (String.length s =? 10)%nat && (substring 4 1 s =? "-") && (substring 7 1 s =? "-")
  then
    match digits_value 0 (substring 0 4 s),
          digits_value 0 (substring 5 2 s),
          digits_value 0 (substring 8 2 s) with
    | Some y, Some m, Some d =>
        if (1 <=? m)%Z && (m <=? 12)%Z && (1 <=? d)%Z && (d <=? days_in_month y m)%Z
        then Some (mkdate y m d) else None
    | _, _, _ => None
    end
  else None.

(** [pd.to_datetime(x, errors='coerce')] on a cell of [End_Date]: a missing
    value or a text that is no date gives [NaT]. *)
Definition to_datetime (x : option string) : option date :=
  match x with
  | None => None
  | Some s => parse_iso_date s
  end.

(** ** The fixed tables (lines 48-57 and 66-74) *)

Definition quarter_mapping : list (string * string) :=
  [ ("Q1 2025", "2025-03-31");
    ("Q2 2025", "2025-06-30");
    ("Q3 2025", "2025-09-30");
    ("Q4 2025", "2025-12-31");
    ("Q1 2026", "2026-03-31");
    ("Q2 2026", "2026-06-30");
    ("Q3 2026", "2026-09-30");
    ("Q4 2026", "2026-12-31") ].

Definition status_colors : list (string * string) :=
  [ ("Budget Evaluation", "#FFA500");
    ("Evaluating", "#87CEEB");
    ("In Progress", "#32CD32");
    ("Completed", "#228B22");
    ("On Hold", "#FF6347");
    ("Planning", "#9370DB");
    ("", "#D3D3D3") ].

Definition default_color : string := "#D3D3D3".

(** ** Column labels *)

(** Position of the first column with the label. *)
Fixpoint index_of (label : string) (cols : list string) : option nat :=
  match cols with
  | [] => None
  | c :: t =>
      if c =? label then Some 0%nat
      else option_map S (index_of label t)
  end.

(** How many entries of a list of texts equal [label]. *)
Fixpoint count_of (label : string) (cols : list string) : nat :=
  match cols with
  | [] => 0%nat
  | c :: t => if c =? label then S (count_of label t) else count_of label t
  end.

(** [df[label]] used as one column: [KeyError] when no column has the label;
    when several have it the selection is a frame, not a column, and the
    column operation applied to it raises. *)
Definition getitem (cols : list string) (label : string) : Result nat :=
  match index_of label cols with
  | None => Raise (KeyError label)
  | Some i => if (count_of label cols =? 1)%nat then Ok i
              else Raise (NotASeries label)
  end.

(** [df[label] = ...] followed by [df[label]] used as one column, for a
    column the code computes: the assignment adds the column, or overwrites
    the one column of that label; when several columns have the label it
    writes them all, the selection is a frame again and the column
    operation applied to it raises. *)
Definition assigned (cols : list string) (label : string) : Result unit :=
  if (2 <=? count_of label cols)%nat then Raise (NotASeries label) else Ok tt.

(** The columns the code computes; a column of the sheet with one of these
    labels is overwritten. *)
Definition computed_labels : list string :=
  ["Timeline"; "End_Date"; "Start_Date"; "Color"; "Priority_Numeric"].

(** ** Sorting, as pandas uses it *)

Section InsertionSort.
Context {A : Type}.
Variable leb : A -> A -> bool.

(** [x] comes from further left than everything in [l]: it stays in front
    of its equals, which makes the sort stable. *)
Fixpoint insert_sorted (x : A) (l : list A) : list A :=
  match l with
  | [] => [x]
  | y :: t => if leb x y then x :: l else y :: insert_sorted x t
  end.

Fixpoint stable_sort (l : list A) : list A :=
  match l with
  | [] => []
  | x :: t => insert_sorted x (stable_sort t)
  end.
End InsertionSort.

(** Code point order on [str]. *)
Definition str_leb (a b : string) : bool :=
  match String.compare a b with Gt => false | _ => true end.

Definition str_lt (a b : string) : Prop := String.compare a b = Lt.

(** ** Counting, as pandas does it *)

(** [s.unique()]: the distinct values in the order of their first
    occurrence. *)
Fixpoint unique (l : list string) : list string :=
  match l with
  | [] => []
  | x :: t => x :: filter (fun y => negb (y =? x)) (unique t)
  end.

(** [s.sort_values(ascending=False)] on a table of counts, the sort inside
    [value_counts].  pandas sorts with NumPy's default sort, which is not
    stable: the order it leaves between equal counts is the library's and
    changes with its version.  The class holds what every run gives: the
    same entries, the larger count first. *)
Class SortValues : Type := {
  sort_values : list (string * nat) -> list (string * nat);
  sort_values_perm : forall t, Permutation (sort_values t) t;
  sort_values_descending :
    forall t, StronglySorted (fun a b => (snd b <= snd a)%nat) (sort_values t)
}.

(** [s.value_counts()]: each distinct value with its count, the larger
    count first. *)
Definition value_counts {sorter : SortValues} (l : list string)
  : list (string * nat) :=
  sort_values (map (fun x => (x, count_of x l)) (unique l)).

(** [s.sort_index()] on a table of counts whose index holds texts. *)
Definition sort_index (t : list (string * nat)) : list (string * nat) :=
  stable_sort (fun a b => str_leb (fst a) (fst b)) t.

(** [s.head(n)] *)
Definition head {A : Type} (n : nat) (l : list A) : list A := firstn n l.

(** [t[k]] on a table of counts, zero for a label that is absent. *)
Fixpoint count_at (t : list (string * nat)) (k : string) : nat :=
  match t with
  | [] => 0%nat
  | (k', n) :: r => if k' =? k then n else count_at r k
  end.

Definition total (t : list (string * nat)) : nat :=
  fold_right (fun kn acc => (snd kn + acc)%nat) 0%nat t.

(** Position of the first occurrence of [x] in [l]. *)
Fixpoint first_index (x : string) (l : list string) : nat :=
  match l with
  | [] => 0%nat
  | y :: t => if y =? x then 0%nat else S (first_index x t)
  end.

(** In a ranking of the values of [l]: the larger count first and, between
    equal counts, the value met first in [l]. *)
Definition ranks_before (l : list string) (a b : string * nat) : Prop :=
  (snd b < snd a)%nat
  \/ (snd a = snd b /\ (first_index (fst a) l < first_index (fst b) l)%nat).

(** The end date the quarter table gives a label. *)
Definition quarter_end (label : string) : option date :=
  to_datetime (dict_get quarter_mapping label).

(** Calendar order of two labels of the quarter table. *)
Definition chronological (a b : string) : Prop :=
  match quarter_end a, quarter_end b with
  | Some x, Some y => date_ltb x y = true
  | _, _ => False
  end.

(** * The pipeline *)

(** What pandas holds in a numeric cell is kept abstract: [number_to_str] is
    [str()] on it and [str_to_number] is [pd.to_numeric(..., errors='coerce')]
    on one text, with [None] for NaN. *)
Class Numeric (number : Type) : Type := {
  number_to_str : number -> string;
  str_to_number : string -> option number
}.

Section Roadmap.

Context {number : Type} {numeric : Numeric number} {sorter : SortValues}.

(** ** Cells and frames *)

Inductive Cell : Type :=
| NaN
| Str (s : string)
| Num (x : number).

(** The first sheet as [pd.read_excel(..., header=2)] sees it: the labels
    of the header row and the rows below it. *)
Record Sheet : Type := mkSheet {
  header : list string;
  body : list (list Cell)
}.

Inductive UploadedFile : Type :=
| Unreadable
| Workbook (sh : Sheet).

(** [pd.read_excel(uploaded_file, sheet_name=0, header=2)]: a file that is
    no workbook raises.  A frame is rectangular, every row of a [Sheet] is
    as wide as its header. *)
Definition read_excel (f : UploadedFile) : Result Sheet :=
  match f with
  | Unreadable => Raise ValueError
  | Workbook sh => Ok sh
  end.

(** [row[i]]; the blank default only serves positions no row has. *)
Definition cell (i : nat) (r : list Cell) : Cell := nth i r NaN.

(** [pd.notna] *)
Definition notna (c : Cell) : bool :=
  match c with NaN => false | _ => true end.

Definition is_text (c : Cell) : bool :=
  match c with Str _ => true | _ => false end.

(** The [.str] accessor exists on a column of dtype object: one read with
    some text in it, or one read from a sheet without rows.  A column of
    numbers and blanks is numeric and has no [.str]. *)
Definition str_accessor (column_as_read : list Cell) : Result unit :=
  match column_as_read with
  | [] => Ok tt
  | _ => if existsb is_text column_as_read then Ok tt else Raise AttributeError
  end.

(** One entry of [s.str.strip()]: an entry that is no text gives NaN. *)
Definition str_strip (c : Cell) : Cell :=
  match c with Str s => Str (strip s) | _ => NaN end.

(** One entry of [s != '']. *)
Definition ne_empty (c : Cell) : bool :=
  match c with Str s => negb (s =? "") | _ => true end.

(** One entry of [df.fillna('')]. *)
Definition fillna (c : Cell) : Cell :=
  match c with NaN => Str "" | _ => c end.

(** One entry of [s.astype(str)]. *)
Definition astype_str (c : Cell) : string :=
  match c with
  | Str s => s
  | Num x => number_to_str x
  | NaN => "nan"
  end.

(** One entry of [s.map(d)] for a dict with text keys: a key that is
    absent, or a cell that is no text, gives NaN. *)
Definition map_dict (d : list (string * string)) (c : Cell) : option string :=
  match c with Str s => dict_get d s | _ => None end.

(** One entry of [pd.to_numeric(s, errors='coerce')]. *)
Definition to_numeric (c : Cell) : option number :=
  match c with
  | Num x => Some x
  | Str s => str_to_number s
  | NaN => None
  end.

(** ** Derive (lines 44-79) *)

Record Derived : Type := mkDerived {
  Timeline : string;
  End_Date : option date;
  Start_Date : option date;
  Color : string;
  Priority_Numeric : option number
}.

(** The five computed columns of one row, from its 'Quarter Date',
    'Status' and 'Total Priority Score' cells. *)
Definition derive (quarter_date status score : Cell) : Derived :=
  let timeline := astype_str quarter_date in
  let end_date := to_datetime (dict_get quarter_mapping timeline) in
  let start_date := option_map (fun e => sub_months e 3) end_date in
  let color :=
    match map_dict status_colors status with
    | Some c => c
    | None => default_color
    end in
  mkDerived timeline end_date start_date color (to_numeric score).

(** A row of the frame: the cells of the columns read from the sheet and
    the computed columns.  A computed column stands for the column of its
    label: where the sheet has a column so labelled, the code overwrites it
    and [cells] keeps what the sheet held. *)
Record Row : Type := mkRow {
  cells : list Cell;
  derived :> Derived
}.

Record DataFrame : Type := mkFrame {
  columns : list string;
  rows : list Row
}.

(** ** Ingest and clean (lines 32-42) *)

(** Lines 35-36 on the rows: [dropna(subset=['Name'])], then the rows whose
    stripped name differs from the empty text. *)
Definition dropna_name (i : nat) (data : list (list Cell)) : list (list Cell) :=
  filter (fun r => notna (cell i r)) data.

Definition drop_empty_name (i : nat) (data : list (list Cell)) : list (list Cell) :=
  filter (fun r => ne_empty (str_strip (cell i r))) data.

Definition clean_names (i : nat) (data : list (list Cell)) : list (list Cell) :=
  drop_empty_name i (dropna_name i data).

Definition process (sh : Sheet) : Result DataFrame :=
  (* 35: df.dropna(subset=['Name']) on the labels as read *)
  i_name <- getitem (header sh) "Name" ;;
  let df1 := dropna_name i_name (body sh) in
  (* 36: df[df['Name'].str.strip() != ''] *)
  _ <- str_accessor (map (cell i_name) (body sh)) ;;
  let df2 := drop_empty_name i_name df1 in
  (* 39: df.columns.str.strip() *)
  let cols := map strip (header sh) in
  (* 42: df.fillna('') *)
  let df3 := map (map fillna) df2 in
  (* 45: df['Timeline'] = df['Quarter Date'].astype(str) *)
  i_quarter <- getitem cols "Quarter Date" ;;
  (* 59: df['Timeline'].map(quarter_mapping) *)
  _ <- assigned cols "Timeline" ;;
  (* 60: pd.to_datetime(df['End_Date'], errors='coerce'); 63 *)
  _ <- assigned cols "End_Date" ;;
  (* 76 *)
  i_status <- getitem cols "Status" ;;
  (* 79 *)
  i_score <- getitem cols "Total Priority Score" ;;
  Ok (mkFrame cols
        (map (fun r => mkRow r (derive (cell i_quarter r) (cell i_status r)
                                       (cell i_score r))) df3)).

Definition load_and_process_data (uploaded_file : option UploadedFile)
  : Result (option DataFrame) :=
  match uploaded_file with
  | Some f =>
      sh <- read_excel f ;;
      df <- process sh ;;
      Ok (Some df)
  | None => Ok None
  end.

(** ** The rows as the page reads them (lines 95-275)

    The page reads ['Status'], ['Requesting Stakeholder'], ['Name'] and
    ['Tool Name'] by label and uses them as [str] (it sorts, slices and
    compares them).  After [fillna] a blank is the empty text; a number in
    one of these columns is no [str] and is reported as [TypeError]. *)

Record DerivedRequest : Type := mkRequest {
  Name : string;
  Requesting_Stakeholder : string;
  Tool_Name : string;
  Status : string;
  computed :> Derived
}.





(** ** Filter (lines 110-120) *)

Definition by_timeline (selected_timeline : string) (df : list DerivedRequest) :=
  filter (fun r : DerivedRequest => Timeline r =? selected_timeline) df.

Definition by_status (selected_status : list string) (df : list DerivedRequest) :=
  filter (fun r => str_in (Status r) selected_status) df.

Definition by_stakeholder (selected_stakeholder : string) (df : list DerivedRequest) :=
  filter (fun r => Requesting_Stakeholder r =? selected_stakeholder) df.

(** A Python list is true when it is not empty. *)
Definition truthy {A : Type} (l : list A) : bool :=
  match l with [] => false | _ => true end.

Definition filtered_df (df : list DerivedRequest)
    (selected_timeline : string) (selected_status : list string)
    (selected_stakeholder : string) : list DerivedRequest :=
  let filtered_df := df in
  let filtered_df :=
    if negb (selected_timeline =? "All")
    then by_timeline selected_timeline filtered_df else filtered_df in
  let filtered_df :=
    if negb (str_in "All" selected_status) && truthy selected_status
    then by_status selected_status filtered_df else filtered_df in
  let filtered_df :=
    if negb (selected_stakeholder =? "All")
    then by_stakeholder selected_stakeholder filtered_df else filtered_df in
  filtered_df.

(** ** Aggregate and project (lines 123-274) *)

Record GanttRow : Type := mkGantt {
  Task : string;
  Start : date;
  Finish : date;
  Resource : string;
  Status' : string;
  Tool : string;
  Timeline' : string;
  Full_Name : string
}.

(** Line 150: [row['Name'][:50] + ('...' if len(row['Name']) > 50 else '')] *)
Definition task_label (name : string) : string :=
  slice_to 50 name ++ (if (50 <? String.length name)%nat then "..." else "").

(** Lines 146-158: the loop appends one record for each row whose two dates
    are defined. *)
Fixpoint gantt_loop (gantt_data : list GanttRow) (rows : list DerivedRequest)
  : list GanttRow :=
  match rows with
  | [] => gantt_data
  | row :: rest =>
      match Start_Date row, End_Date row with
      | Some s, Some e =>
          gantt_loop
            (gantt_data ++
               [mkGantt (task_label (Name row)) s e (Requesting_Stakeholder row)
                        (Status row) (Tool_Name row) (Timeline row) (Name row)])
            rest
      | _, _ => gantt_loop gantt_data rest
      end
  end.

Definition gantt_data (filtered : list DerivedRequest) : list GanttRow :=
  gantt_loop [] filtered.

(** Line 128 *)
Definition total_items (filtered : list DerivedRequest) : nat :=
  List.length filtered.

(** Line 206 *)
Definition status_counts (filtered : list DerivedRequest) : list (string * nat) :=
  value_counts (map Status filtered).

(** Line 217 *)
Definition stakeholder_counts (filtered : list DerivedRequest) : list (string * nat) :=
  value_counts (map Requesting_Stakeholder filtered).

(** Line 256 *)
Definition quarter_dist (filtered : list DerivedRequest) : list (string * nat) :=
  sort_index (value_counts (map (fun r : DerivedRequest => Timeline r) filtered)).

(** Line 262 *)
Definition tool_counts (filtered : list DerivedRequest) : list (string * nat) :=
  head 5 (value_counts
            (map Tool_Name (filter (fun r => negb (Tool_Name r =? "")) filtered))).

Record AggregateReport : Type := mkReport {
  total_count : nat;
  status_counts_of : list (string * nat);
  stakeholder_counts_of : list (string * nat);
  bucket_counts : list (string * nat);
  top_tools : list (string * nat);
  chart_rows : list GanttRow
}.

(** Line 123: the aggregates are computed when the selection is not empty;
    otherwise the page shows a warning only. *)
Definition main_content (filtered : list DerivedRequest) : option AggregateReport :=
  match filtered with
  | [] => None
  | _ =>
      Some (mkReport (total_items filtered) (status_counts filtered)
                     (stakeholder_counts filtered) (quarter_dist filtered)
                     (tool_counts filtered) (gantt_data filtered))
  end.

(** ** The claims' vocabulary

    These definitions follow the words of the specification, not the code;
    the theorems below compare them with the code. *)

(** A name that is present and not empty after trimming. *)
Definition named (c : Cell) : bool :=
  match c with
  | NaN => false
  | Str s => negb (strip s =? "")
  | Num _ => true
  end.

(** A predicate is supplied when the widget holds something else than the
    sentinel; for the statuses, when the selection names some status and
    not ["All"]. *)
Definition timeline_supplied (selected_timeline : string) : bool :=
  negb (selected_timeline =? "All").

Definition statuses_supplied (selected_status : list string) : bool :=
  negb (str_in "All" selected_status) && truthy selected_status.

Definition stakeholder_supplied (selected_stakeholder : string) : bool :=
  negb (selected_stakeholder =? "All").


(** Both dates of the row are defined. *)
Definition has_dates (r : DerivedRequest) : bool :=
  match Start_Date r, End_Date r with
  | Some _, Some _ => true
  | _, _ => false
  end.

(** The fields of a chart row other than its label. *)
Definition chart_fields (g : GanttRow)
  : string * option date * option date * string * string * string * string :=
  (Full_Name g, Some (Start g), Some (Finish g), Resource g, Status' g, Tool g,
   Timeline' g).

Definition request_fields (r : DerivedRequest)
  : string * option date * option date * string * string * string * string :=
  (Name r, Start_Date r, End_Date r, Requesting_Stakeholder r, Status r,
   Tool_Name r, Timeline r).

(** ** The rest of the page *)

(** [sorted(l)] on texts. *)
Definition sorted (l : list string) : list string := stable_sort str_leb l.

(** Lines 99, 103 and 107: [['All'] + sorted(column.unique())]. *)
Definition options (column : list string) : list string :=
  "All" :: sorted (unique column).

Definition timeline_options (df : list DerivedRequest) : list string :=
  options (map (fun r : DerivedRequest => Timeline r) df).

Definition status_options (df : list DerivedRequest) : list string :=
  options (map Status df).

Definition stakeholder_options (df : list DerivedRequest) : list string :=
  options (map Requesting_Stakeholder df).

(** Lines 131, 135 and 139: [len(filtered_df[filtered_df['Status'] == label])]. *)
Definition status_metric (label : string) (filtered : list DerivedRequest) : nat :=
  List.length (filter (fun r => Status r =? label) filtered).

Definition budget_eval_count := status_metric "Budget Evaluation".
Definition evaluating_count := status_metric "Evaluating".
Definition in_progress_count := status_metric "In Progress".

(** Lines 167-169.  [Set3] is plotly's palette [px.colors.qualitative.Set3],
    taken as an argument. *)
Definition stakeholders (gantt_df : list GanttRow) : list string :=
  unique (map Resource gantt_df).

Definition colors (Set3 : list string) (gantt_df : list GanttRow) : list string :=
  firstn (List.length (stakeholders gantt_df)) Set3.

(** [dict(zip(stakeholders, colors))]: the keys are distinct and [zip] stops
    with the shorter list. *)
Definition color_map (Set3 : list string) (gantt_df : list GanttRow)
  : list (string * string) :=
  combine (stakeholders gantt_df) (colors Set3 gantt_df).

(** One [go.Scatter] of lines 172-182.  The bar of row [idx] lies between
    the heights [idx] and [idx + 0.8]; [trace_band] keeps the [idx]. *)
Record Trace : Type := mkTrace {
  trace_x : list date;
  trace_band : nat;
  trace_fillcolor : string;
  trace_line : string;
  trace_name : string;
  trace_text : string;
  trace_showlegend : bool
}.

Definition trace (Set3 : list string) (gantt_df : list GanttRow) (idx : nat)
    (row : GanttRow) : Trace :=
  let color :=
    match dict_get (color_map Set3 gantt_df) (Resource row) with
    | Some c => c
    | None => "#1f77b4"
    end in
  mkTrace [Start row; Finish row; Finish row; Start row; Start row]
          idx color color (Resource row)
          (Task row ++ "<br>Status: " ++ Status' row ++ "<br>Tool: " ++ Tool row)
          ((idx =? 0)%nat
           || negb (str_in (Resource row) (map Resource (firstn idx gantt_df)))).

(** Line 171: [for idx, row in gantt_df.iterrows()]. *)
Fixpoint trace_loop (Set3 : list string) (gantt_df : list GanttRow) (idx : nat)
    (rows : list GanttRow) : list Trace :=
  match rows with
  | [] => []
  | row :: rest =>
      trace Set3 gantt_df idx row :: trace_loop Set3 gantt_df (S idx) rest
  end.

Record Figure : Type := mkFigure {
  fig_data : list Trace;
  fig_height : nat;
  fig_tickvals : list nat;
  fig_ticktext : list string
}.

(** Lines 160-199: the figure is drawn when there is a chart row. *)
Definition timeline_figure (Set3 : list string) (gantt_data : list GanttRow)
  : option Figure :=
  match gantt_data with
  | [] => None
  | _ =>
      Some (mkFigure (trace_loop Set3 gantt_data 0 gantt_data)
                     (Nat.max 400 (List.length gantt_data * 40))
                     (seq 0 (List.length gantt_data))
                     (map Task gantt_data))
  end.

(** Lines 235-245: [highlight_status]. *)
Definition highlight_colors : list (string * string) :=
  [ ("Budget Evaluation", "background-color: #FFF3CD");
    ("Evaluating", "background-color: #D1ECF1");
    ("In Progress", "background-color: #D4EDDA");
    ("Completed", "background-color: #C8E6C9");
    ("On Hold", "background-color: #F8D7DA");
    ("Planning", "background-color: #E2D9F7") ].

(** A row of the table is a series: its labels with their cells. *)
Fixpoint series_get (row : list (string * Cell)) (label : string) : Result Cell :=
  match row with
  | [] => Raise (KeyError label)
  | (l, c) :: t => if l =? label then Ok c else series_get t label
  end.

Definition highlight_status (row : list (string * Cell)) : Result (list string) :=
  status <- series_get row "Status" ;;
  let status_color :=
    match map_dict highlight_colors status with
    | Some c => c
    | None => ""
    end in
  Ok (repeat status_color (List.length row)).

(** Line 91: [df is None or df.empty]. *)
Definition could_not_load (df : option DataFrame) : bool :=
  match df with
  | None => true
  | Some d => negb (truthy (rows d)) || negb (truthy (columns d))
  end.

End Roadmap.

Arguments Cell : clear implicits.
Arguments Sheet : clear implicits.
Arguments UploadedFile : clear implicits.
Arguments Derived : clear implicits.
Arguments Row : clear implicits.
Arguments DataFrame : clear implicits.
Arguments DerivedRequest : clear implicits.
Arguments could_not_load {number} df.

(** ** Whole-number scores

    One instance of the numeric interface of the pipeline, used for the
    worked examples: scores are integers written in decimal.  On such
    texts it agrees with [str()] and [pd.to_numeric]. *)

Definition int_to_str (z : Z) : string := NilZero.string_of_int (Z.to_int z).

Definition int_of_str (s : string) : option Z :=
  option_map Z.of_int (NilZero.int_of_string s).

#[global] Instance int_numeric : Numeric Z := {
  number_to_str := int_to_str;
  str_to_number := int_of_str
}.

(** ** Worked inputs *)

(** A sheet with the six columns and two rows: the first is complete, the
    second has a quarter outside the table, no status and a score that is
    no number. *)
Definition roadmap_header : list string :=
  ["Name"; "Requesting Stakeholder"; "Quarter Date"; "Tool Name"; "Status";
   "Total Priority Score"].

Definition row_X : list (Cell Z) :=
  [Str "X"; Str "Legal"; Str "Q1 2025"; Str "Drafter"; Str "In Progress"; Num 7%Z].

Definition row_Y : list (Cell Z) :=
  [Str "Y"; Str "Finance"; Str "Q5 2099"; Str "Ledger"; NaN; Str "abc"].

Definition row_blank : list (Cell Z) :=
  [Str "   "; Str "Legal"; Str "Q2 2025"; Str "Drafter"; Str "Planning"; Num 1%Z].

Definition row_missing : list (Cell Z) :=
  [NaN; Str "Legal"; Str "Q2 2025"; Str "Drafter"; Str "Planning"; Num 1%Z].

Definition sample_sheet : Sheet Z :=
  mkSheet roadmap_header [row_X; row_blank; row_Y; row_missing].

(** A request as the page reads it, derived from its cells. *)
Definition request (name stakeholder tool status quarter : string)
    (score : Cell Z) : DerivedRequest Z :=
  mkRequest name stakeholder tool status
            (derive (Str quarter) (Str status) score).

Definition req_X : DerivedRequest Z :=
  request "X" "Legal" "Drafter" "In Progress" "Q1 2025" (Num 7%Z).

Definition req_Y : DerivedRequest Z :=
  request "Y" "Finance" "Ledger" "" "Q5 2099" (Str "abc").

Definition req_late : DerivedRequest Z :=
  request "Late" "Legal" "Drafter" "Planning" "Q4 2025" (Num 3%Z).

Definition req_next : DerivedRequest Z :=
  request "Next" "Finance" "Planner" "Planning" "Q1 2026" (Num 5%Z).

(** Six rows with the tools A, B, C, C, D, D. *)
Definition rows_ABCCDD : list (DerivedRequest Z) :=
  map (fun tool => request tool "Legal" tool "Planning" "Q1 2025" (Num 1%Z))
      ["A"; "B"; "C"; "C"; "D"; "D"].

(** A sheet without the ['Tool Name'] column. *)
Definition sheet_without_tool : Sheet Z :=
  mkSheet ["Name"; "Requesting Stakeholder"; "Quarter Date"; "Status";
           "Total Priority Score"]
          [[Str "X"; Str "Legal"; Str "Q1 2025"; Str "In Progress"; Num 7%Z]].

(** A sheet with two columns whose labels trim to 'Timeline'. *)
Definition sheet_two_timelines : Sheet Z :=
  mkSheet ["Name"; "Requesting Stakeholder"; "Quarter Date"; "Tool Name";
           "Status"; "Total Priority Score"; "Timeline"; " Timeline"]
          [[Str "X"; Str "Legal"; Str "Q1 2025"; Str "Drafter";
            Str "In Progress"; Num 7%Z; Str "a"; Str "b"]].

(** A sheet whose name column is labelled with a space in front. *)
Definition sheet_padded_name : Sheet Z :=
  mkSheet [" Name"; "Requesting Stakeholder"; "Quarter Date"; "Tool Name";
           "Status"; "Total Priority Score"]
          [row_X].

(** * Properties *)

(** ** Dates *)

Lemma digit_of_range (c : ascii) (v : Z) :
  digit_of c = Some v -> (0 <= v <= 9)%Z.
Proof.
  unfold digit_of.
  destruct ((48 <=? nat_of_ascii c) && (nat_of_ascii c <=? 57))%nat eqn:E;
    [|discriminate].
  apply andb_prop in E as [E1 E2].
  apply Nat.leb_le in E1, E2.
  intros [= <-]. lia.
Qed.

Lemma parse_iso_date_valid (s : string) (d : date) :
  parse_iso_date s = Some d -> valid_date d.
Proof.
  unfold parse_iso_date.
  destruct (_ && _ && _); [|discriminate].
  destruct (digits_value 0 (substring 0 4 s)) as [y|]; [|discriminate].
  destruct (digits_value 0 (substring 5 2 s)) as [m|]; [|discriminate].
  destruct (digits_value 0 (substring 8 2 s)) as [dd|]; [|discriminate].
  destruct ((1 <=? m)%Z && (m <=? 12)%Z && (1 <=? dd)%Z
            && (dd <=? days_in_month y m)%Z) eqn:E; [|discriminate].
  intros [= <-].
  repeat (apply andb_prop in E as [E ?]).
  unfold valid_date; cbn.
  repeat match goal with H : (_ <=? _)%Z = true |- _ => apply Z.leb_le in H end.
  lia.
Qed.

Lemma days_in_month_pos (y m : Z) : (28 <= days_in_month y m <= 31)%Z.
Proof.
  unfold days_in_month.
  destruct (m =? 2)%Z; [destruct (is_leap y); lia|].
  destruct ((m =? 4) || (m =? 6) || (m =? 9) || (m =? 11))%Z; lia.
Qed.

Lemma sub_months_between (d : date) (n : Z) :
  (1 <= month d <= 12)%Z -> months_between (sub_months d n) d = n.
Proof.
  intros Hm. unfold months_between, sub_months; cbn [year month day].
  pose proof (Z.div_mod (12 * year d + (month d - 1) - n) 12 ltac:(lia)).
  lia.
Qed.

Lemma sub_months_valid (d : date) (n : Z) :
  valid_date d -> valid_date (sub_months d n).
Proof.
  intros [Hm Hd]. unfold valid_date, sub_months; cbn [year month day].
  pose proof (Z.mod_pos_bound (12 * year d + (month d - 1) - n) 12 ltac:(lia)).
  pose proof (days_in_month_pos
                ((12 * year d + (month d - 1) - n) / 12)
                ((12 * year d + (month d - 1) - n) mod 12 + 1)).
  lia.
Qed.

Lemma sub_months_leb (d : date) (n : Z) :
  valid_date d -> (0 <= n)%Z -> date_leb (sub_months d n) d = true.
Proof.
  intros [Hm Hd] Hn. unfold date_leb, sub_months; cbn [year month day].
  set (t := (12 * year d + (month d - 1) - n)%Z).
  pose proof (Z.div_mod t 12 ltac:(lia)) as Ht.
  pose proof (Z.mod_pos_bound t 12 ltac:(lia)) as Hb.
  destruct (Z.ltb_spec (t / 12) (year d)) as [|Hy]; [reflexivity|].
  cbn.
  assert (t / 12 = year d)%Z as Hyy by (subst t; lia).
  rewrite Hyy, Z.eqb_refl; cbn.
  destruct (Z.ltb_spec (t mod 12 + 1) (month d)) as [|Hmm]; [reflexivity|].
  cbn.
  assert (t mod 12 + 1 = month d)%Z as Hmo by (subst t; lia).
  rewrite Hmo, Z.eqb_refl; cbn.
  apply Z.leb_le. lia.
Qed.

Lemma dict_get_in {V : Type} (d : list (string * V)) (k : string) (v : V) :
  dict_get d k = Some v -> In (k, v) d.
Proof.
  induction d as [|[k' v'] d IH]; cbn; [discriminate|].
  destruct (String.eqb_spec k' k) as [->|]; [intros [= ->]; now left|].
  intros H; right; auto.
Qed.

Lemma count_of_distinct (label : string) (cols : list string) :
  NoDup cols -> (count_of label cols <= 1)%nat.
Proof.
  induction 1 as [|c cols Hc Hnd IH]; cbn; [lia|].
  destruct (String.eqb_spec c label) as [->|]; [|exact IH].
  enough (count_of label cols = 0)%nat by lia.
  clear IH Hnd. induction cols as [|d cols IH]; [reflexivity|].
  cbn. destruct (String.eqb_spec d label) as [->|].
  - exfalso. apply Hc. now left.
  - apply IH. intros H. apply Hc. now right.
Qed.

Lemma assigned_distinct (cols : list string) (label : string) :
  NoDup cols -> assigned cols label = Ok tt.
Proof.
  intros H. unfold assigned.
  pose proof (count_of_distinct label cols H).
  destruct (Nat.leb_spec 2 (count_of label cols)); [lia|reflexivity].
Qed.

(** ** Derive *)

Section DeriveFacts.

Context {number : Type} {numeric : Numeric number}.

Lemma derive_end_date (quarter_date status score : Cell number) :
  End_Date (derive quarter_date status score)
  = to_datetime (dict_get quarter_mapping (astype_str quarter_date)).
Proof. reflexivity. Qed.

Lemma derive_start_date (quarter_date status score : Cell number) :
  Start_Date (derive quarter_date status score)
  = option_map (fun e => sub_months e 3)
               (End_Date (derive quarter_date status score)).
Proof. reflexivity. Qed.

Lemma derive_color (quarter_date status score : Cell number) :
  Color (derive quarter_date status score)
  = match map_dict status_colors status with
    | Some c => c
    | None => default_color
    end.
Proof. reflexivity. Qed.

Lemma derive_end_date_valid (quarter_date status score : Cell number) (e : date) :
  End_Date (derive quarter_date status score) = Some e -> valid_date e.
Proof.
  rewrite derive_end_date. unfold to_datetime.
  destruct (dict_get quarter_mapping (astype_str quarter_date)); [|discriminate].
  apply parse_iso_date_valid.
Qed.

(** C1. Derive is a total function and its three anomalies resolve to the
    fallback values: a [Timeline] outside the quarter table gives an
    undefined [End_Date] and [Start_Date]; a status outside the color table,
    and the empty status, give ["#D3D3D3"]; a score that [pd.to_numeric]
    cannot read gives an undefined [Priority_Numeric].  No value of these
    three cells makes the frame fail: on a sheet whose trimmed labels are
    distinct, once the labels are found and the [Name] column has its
    [.str], [process] returns a frame with one derived row for each cleaned
    row. *)
Theorem derive_total :
  (forall quarter_date status score : Cell number,
      exists d : Derived number,
        derive quarter_date status score = d
        /\ Timeline d = astype_str quarter_date
        /\ (dict_get quarter_mapping (Timeline d) = None ->
            End_Date d = None /\ Start_Date d = None)
        /\ (map_dict status_colors status = None \/ status = Str "" ->
            Color d = "#D3D3D3")
        /\ (to_numeric score = None -> Priority_Numeric d = None))
  /\ (forall (sh : Sheet number) (i_name i_quarter i_status i_score : nat),
        NoDup (map strip (header sh)) ->
        getitem (header sh) "Name" = Ok i_name ->
        str_accessor (map (cell i_name) (body sh)) = Ok tt ->
        getitem (map strip (header sh)) "Quarter Date" = Ok i_quarter ->
        getitem (map strip (header sh)) "Status" = Ok i_status ->
        getitem (map strip (header sh)) "Total Priority Score" = Ok i_score ->
        exists df : DataFrame number,
          process sh = Ok df
          /\ List.length (rows df)
             = List.length (clean_names i_name (body sh))
          /\ forall r, In r (rows df) ->
               derived r = derive (cell i_quarter (cells r))
                                  (cell i_status (cells r))
                                  (cell i_score (cells r))).
Proof.
  split.
  - intros qd st sc. eexists; split; [reflexivity|].
    split; [reflexivity|]. split; [|split].
    + intros H. rewrite derive_start_date, derive_end_date.
      change (Timeline (derive qd st sc)) with (astype_str qd) in H.
      rewrite H. split; reflexivity.
    + rewrite derive_color. intros [H| ->]; [rewrite H|]; reflexivity.
    + intros H; exact H.
  - intros sh i_name i_q i_st i_sc Hnd Hn Hs Hq Hst Hsc.
    unfold process. rewrite Hn; cbn. rewrite Hs; cbn.
    rewrite Hq; cbn. rewrite !(assigned_distinct _ _ Hnd); cbn.
    rewrite Hst; cbn. rewrite Hsc; cbn.
    eexists; split; [reflexivity|]. cbn. split.
    + now rewrite !length_map.
    + intros r Hr. apply in_map_iff in Hr as (c & <- & _). reflexivity.
Qed.

(** C2. Whenever [End_Date] is defined, [Start_Date] is defined and is
    [End_Date - DateOffset(months=3)]: exactly three calendar months
    earlier, the same day of the month unless the month reached is shorter,
    and never after [End_Date].  [derive] takes no offset: the 3 is fixed. *)
Theorem start_date_three_months_before
    (quarter_date status score : Cell number) (e : date) :
  End_Date (derive quarter_date status score) = Some e ->
  exists s : date,
    Start_Date (derive quarter_date status score) = Some s
    /\ s = sub_months e 3
    /\ months_between s e = 3%Z
    /\ day s = Z.min (day e) (days_in_month (year s) (month s))
    /\ valid_date s
    /\ date_leb s e = true.
Proof.
  intros He.
  pose proof (derive_end_date_valid _ _ _ _ He) as Hv.
  rewrite derive_start_date, He. cbn [option_map].
  eexists; split; [reflexivity|]. split; [reflexivity|].
  split; [apply sub_months_between; apply Hv|].
  split; [reflexivity|].
  split; [now apply sub_months_valid|].
  apply sub_months_leb; [assumption|lia].
Qed.

(** C3. The quarter table maps each of its eight labels to the listed end
    date and nothing else to a date.  A row named "X" of quarter "Q1 2025"
    and status "In Progress" gets [End_Date] 2025-03-31, [Start_Date]
    2024-12-31 and [Color] "#32CD32", also when read from a sheet. *)
Theorem quarter_table_end_dates :
  (forall status score : Cell number,
      map (fun q => End_Date (derive (Str q) status score))
          ["Q1 2025"; "Q2 2025"; "Q3 2025"; "Q4 2025";
           "Q1 2026"; "Q2 2026"; "Q3 2026"; "Q4 2026"]
      = [Some (mkdate 2025 3 31); Some (mkdate 2025 6 30);
         Some (mkdate 2025 9 30); Some (mkdate 2025 12 31);
         Some (mkdate 2026 3 31); Some (mkdate 2026 6 30);
         Some (mkdate 2026 9 30); Some (mkdate 2026 12 31)])
  /\ (forall (quarter_date status score : Cell number) (e : date),
        End_Date (derive quarter_date status score) = Some e ->
        In (Timeline (derive quarter_date status score), e)
           [("Q1 2025", mkdate 2025 3 31); ("Q2 2025", mkdate 2025 6 30);
            ("Q3 2025", mkdate 2025 9 30); ("Q4 2025", mkdate 2025 12 31);
            ("Q1 2026", mkdate 2026 3 31); ("Q2 2026", mkdate 2026 6 30);
            ("Q3 2026", mkdate 2026 9 30); ("Q4 2026", mkdate 2026 12 31)])
  /\ (forall score : Cell number,
        let d := derive (Str "Q1 2025") (Str "In Progress") score in
        End_Date d = Some (mkdate 2025 3 31)
        /\ Start_Date d = Some (mkdate 2024 12 31)
        /\ Color d = "#32CD32")
  /\ (forall stakeholder tool score : Cell number,
        load_and_process_data
          (Some (Workbook
                   (mkSheet roadmap_header
                      [[Str "X"; stakeholder; Str "Q1 2025"; tool;
                        Str "In Progress"; score]])))
        = Ok (Some
                (mkFrame roadmap_header
                   [mkRow [Str "X"; fillna stakeholder; Str "Q1 2025";
                           fillna tool; Str "In Progress"; fillna score]
                          (mkDerived "Q1 2025" (Some (mkdate 2025 3 31))
                                     (Some (mkdate 2024 12 31)) "#32CD32"
                                     (to_numeric (fillna score)))]))).
Proof.
  split; [reflexivity|]. split; [|split; [intros; repeat split|reflexivity]].
  intros qd st sc e. rewrite derive_end_date.
  change (Timeline (derive qd st sc)) with (astype_str qd).
  unfold to_datetime.
  destruct (dict_get quarter_mapping (astype_str qd)) as [iso|] eqn:E;
    [|discriminate].
  apply dict_get_in in E. intros Hp.
  unfold quarter_mapping in E. cbn [In] in E.
  repeat (destruct E as [E|E];
          [injection E as <- <-; vm_compute in Hp; injection Hp as <-;
           cbn; tauto|]).
  destruct E.
Qed.

End DeriveFacts.

Lemma derive_total_witness :
  (End_Date (derive (Str "Q5 2099") (Str "") (Str (number:=Z) "abc")) = None
   /\ Color (derive (Str "Q5 2099") (Str "") (Str (number:=Z) "abc")) = "#D3D3D3"
   /\ Priority_Numeric (derive (Str "Q5 2099") (Str "") (Str (number:=Z) "abc"))
      = None)
  /\ succeeded (process sample_sheet) = true.
Proof.
  pose proof (@derive_total Z int_numeric) as [Hrow Hframe].
  split.
  - destruct (Hrow (Str "Q5 2099") (Str "") (Str "abc"))
      as (d & <- & _ & Hdate & Hcolor & Hscore).
    split; [apply Hdate; reflexivity|].
    split; [apply Hcolor; right; reflexivity|].
    apply Hscore; reflexivity.
  - assert (Hnd : NoDup (map strip (header sample_sheet)))
      by (cbn; repeat constructor; cbn; intuition discriminate).
    destruct (Hframe sample_sheet 0%nat 2%nat 4%nat 5%nat Hnd
                     eq_refl eq_refl eq_refl eq_refl eq_refl)
      as (df & -> & _).
    reflexivity.
Defined.

Lemma start_date_three_months_before_witness :
  exists s : date,
    Start_Date (derive (Str "Q2 2025") (Str "Planning") (Num 1%Z)) = Some s
    /\ s = mkdate 2025 3 30.
Proof.
  destruct (start_date_three_months_before
              (Str "Q2 2025") (Str "Planning") (Num 1%Z) (mkdate 2025 6 30)
              eq_refl)
    as (s & Hs & -> & _).
  exists (sub_months (mkdate 2025 6 30) 3). split; [exact Hs|reflexivity].
Defined.

Lemma quarter_table_end_dates_witness :
  In ("Q3 2026", mkdate 2026 9 30)
     [("Q1 2025", mkdate 2025 3 31); ("Q2 2025", mkdate 2025 6 30);
      ("Q3 2025", mkdate 2025 9 30); ("Q4 2025", mkdate 2025 12 31);
      ("Q1 2026", mkdate 2026 3 31); ("Q2 2026", mkdate 2026 6 30);
      ("Q3 2026", mkdate 2026 9 30); ("Q4 2026", mkdate 2026 12 31)].
Proof.
  exact (proj1 (proj2 (@quarter_table_end_dates Z int_numeric))
               (Str "Q3 2026") (Str "") (Num 0%Z) (mkdate 2026 9 30) eq_refl).
Defined.

(** ** Filter *)

Lemma filter_twice {A : Type} (f g : A -> bool) (l : list A) :
  filter g (filter f l) = filter (fun x => f x && g x) l.
Proof.
  induction l as [|x l IH]; [reflexivity|].
  cbn. destruct (f x); cbn; [destruct (g x)|]; now rewrite IH.
Qed.

Lemma filter_all {A : Type} (f : A -> bool) (l : list A) :
  (forall x, In x l -> f x = true) -> filter f l = l.
Proof.
  induction l as [|x l IH]; intros H; [reflexivity|].
  cbn. rewrite (H x (or_introl eq_refl)). f_equal.
  apply IH. intros y Hy. apply H. now right.
Qed.

Section FilterFacts.

Context {number : Type}.

Implicit Types (df : list (DerivedRequest number)) (r : DerivedRequest number).

Lemma filtered_df_steps df t st h :
  filtered_df df t st h
  = filter (fun r => implb (stakeholder_supplied h)
                           (Requesting_Stakeholder r =? h))
      (filter (fun r => implb (statuses_supplied st) (str_in (Status r) st))
         (filter (fun r => implb (timeline_supplied t) (Timeline r =? t)) df)).
Proof.
  unfold filtered_df, timeline_supplied, statuses_supplied,
    stakeholder_supplied, by_timeline, by_status, by_stakeholder.
  destruct (negb (t =? "All")); cbn [implb];
    [|rewrite (filter_all (fun _ => true) df) by reflexivity];
    (destruct (negb (str_in "All" st) && truthy st); cbn [implb];
     [|rewrite (filter_all (fun _ => true)) by reflexivity]);
    (destruct (negb (h =? "All")); cbn [implb];
     [|rewrite (filter_all (fun _ => true)) by reflexivity]);
    reflexivity.
Qed.


(** C10. An empty selection of statuses restricts nothing: the filter
    behaves as with the selection ["All"], and when the two other widgets
    hold "All" every row passes. *)
Theorem empty_status_selection_unrestricted df t h :
  filtered_df df t [] h = filtered_df df t ["All"] h
  /\ filtered_df df t [] h
     = filter (fun r => implb (stakeholder_supplied h)
                              (Requesting_Stakeholder r =? h))
         (filter (fun r => implb (timeline_supplied t) (Timeline r =? t)) df)
  /\ filtered_df df "All" [] "All" = df
  /\ (forall r, In r df -> Timeline r = t -> Requesting_Stakeholder r = h ->
                In r (filtered_df df t [] h)).
Proof.
  split; [reflexivity|]. split; [|split; [reflexivity|]].
  - rewrite filtered_df_steps. cbn [statuses_supplied str_in truthy negb andb implb].
    rewrite (filter_all (fun _ => true)) by reflexivity. reflexivity.
  - intros r Hr Ht Hh.
    rewrite filtered_df_steps. cbn [statuses_supplied str_in truthy negb andb implb].
    rewrite (filter_all (fun _ => true)) by reflexivity.
    apply filter_In. split; [apply filter_In; split; [assumption|]|].
    + rewrite Ht, String.eqb_refl. now destruct (timeline_supplied t).
    + rewrite Hh, String.eqb_refl. now destruct (stakeholder_supplied h).
Qed.

End FilterFacts.


Lemma empty_status_selection_unrestricted_witness :
  In req_X (filtered_df [req_X; req_Y] "Q1 2025" [] "Legal").
Proof.
  apply (proj2 (proj2 (proj2
           (empty_status_selection_unrestricted [req_X; req_Y] "Q1 2025" "Legal")))).
  - left; reflexivity.
  - reflexivity.
  - reflexivity.
Defined.

(** ** Sorting *)

Section SortFacts.

Context {A : Type} (leb : A -> A -> bool).

Lemma insert_sorted_perm (x : A) (l : list A) :
  Permutation (insert_sorted leb x l) (x :: l).
Proof.
  induction l as [|y l IH]; cbn; [reflexivity|].
  destruct (leb x y); [reflexivity|].
  rewrite IH. apply perm_swap.
Qed.

Lemma stable_sort_perm (l : list A) : Permutation (stable_sort leb l) l.
Proof.
  induction l as [|x l IH]; cbn; [reflexivity|].
  rewrite insert_sorted_perm. now constructor.
Qed.

Lemma stable_sort_in (x : A) (l : list A) :
  In x (stable_sort leb l) <-> In x l.
Proof.
  split; apply Permutation_in;
    [apply stable_sort_perm|symmetry; apply stable_sort_perm].
Qed.

(** With a total and transitive comparison the result is sorted. *)
Lemma stable_sort_sorted (l : list A) :
  (forall a b, leb a b = true \/ leb b a = true) ->
  (forall a b c, leb a b = true -> leb b c = true -> leb a c = true) ->
  StronglySorted (fun a b => leb a b = true) (stable_sort leb l).
Proof.
  intros Htotal Htrans.
  assert (Hins : forall x s,
             StronglySorted (fun a b => leb a b = true) s ->
             StronglySorted (fun a b => leb a b = true) (insert_sorted leb x s)).
  { intros x s Hs. induction Hs as [|y s Hs IH Hy]; cbn.
    - repeat constructor.
    - destruct (leb x y) eqn:E.
      + constructor; [now constructor|].
        constructor; [assumption|].
        eapply Forall_impl; [|exact Hy]. intros z Hz. eauto.
      + constructor; [assumption|].
        rewrite Forall_forall. intros z Hz.
        apply (Permutation_in _ (insert_sorted_perm x s)) in Hz.
        destruct Hz as [<-|Hz].
        * destruct (Htotal x y) as [H|H]; [congruence|assumption].
        * rewrite Forall_forall in Hy. auto. }
  induction l as [|x l IH]; cbn; [constructor|auto].
Qed.

(** A descending sort on [key] of a list that is in increasing [idx] order:
    the larger key first and, between equal keys, the smaller [idx]. *)
Variables key idx : A -> nat.
Hypothesis leb_key : forall a b, leb a b = (key b <=? key a)%nat.

Local Abbreviation ranked :=
  (fun a b : A =>
     (key b < key a)%nat \/ (key a = key b /\ (idx a < idx b)%nat)).

Lemma insert_sorted_ranked (x : A) (s : list A) :
  StronglySorted ranked s ->
  Forall (fun y => (idx x < idx y)%nat) s ->
  StronglySorted ranked (insert_sorted leb x s).
Proof.
  intros Hs. induction Hs as [|y s Hs IH Hy]; intros Hx; cbn.
  - repeat constructor.
  - inversion Hx as [|? ? Hxy Hxs]; subst.
    rewrite leb_key. destruct (Nat.leb_spec (key y) (key x)) as [Hle|Hlt].
    + constructor; [now constructor|].
      constructor; [lia|].
      rewrite Forall_forall in Hy, Hxs |- *. intros z Hz.
      specialize (Hy z Hz). specialize (Hxs z Hz).
      cbn beta in *. lia.
    + constructor; [auto|].
      rewrite Forall_forall. intros z Hz.
      apply (Permutation_in _ (insert_sorted_perm x s)) in Hz.
      destruct Hz as [<-|Hz]; [lia|].
      rewrite Forall_forall in Hy. auto.
Qed.

Lemma stable_sort_ranked (l : list A) :
  StronglySorted (fun a b => (idx a < idx b)%nat) l ->
  StronglySorted ranked (stable_sort leb l).
Proof.
  induction 1 as [|x l Hl IH Hx]; cbn; [constructor|].
  apply insert_sorted_ranked; [assumption|].
  rewrite Forall_forall in Hx |- *. intros y Hy.
  apply Hx. now apply stable_sort_in.
Qed.

End SortFacts.

Lemma StronglySorted_filter {A : Type} (R : A -> A -> Prop) (f : A -> bool)
    (l : list A) :
  StronglySorted R l -> StronglySorted R (filter f l).
Proof.
  induction 1 as [|x l Hl IH Hx]; cbn; [constructor|].
  destruct (f x); [|assumption].
  constructor; [assumption|].
  rewrite Forall_forall in Hx |- *. intros y Hy.
  apply filter_In in Hy. apply Hx, Hy.
Qed.

Lemma StronglySorted_weaken {A : Type} (R R' : A -> A -> Prop) (l : list A) :
  (forall a b, In a l -> In b l -> R a b -> R' a b) ->
  StronglySorted R l -> StronglySorted R' l.
Proof.
  intros HR Hl. induction Hl as [|x l Hl IH Hx]; [constructor|].
  constructor.
  - apply IH. intros a b Ha Hb. apply HR; now right.
  - rewrite Forall_forall in Hx |- *. intros y Hy.
    apply HR; [now left|now right|auto].
Qed.

Lemma StronglySorted_map {A B : Type} (R : B -> B -> Prop) (f : A -> B)
    (l : list A) :
  StronglySorted (fun a b => R (f a) (f b)) l -> StronglySorted R (map f l).
Proof.
  induction 1 as [|x l Hl IH Hx]; cbn; constructor; [assumption|].
  rewrite Forall_forall in Hx |- *. intros y Hy.
  apply in_map_iff in Hy as (a & <- & Ha). auto.
Qed.

Lemma StronglySorted_split {A : Type} (R : A -> A -> Prop) (n : nat)
    (l : list A) :
  StronglySorted R l ->
  forall a b, In a (firstn n l) -> In b (skipn n l) -> R a b.
Proof.
  intros Hl. revert n. induction Hl as [|x l Hl IH Hx]; intros n a b.
  - rewrite firstn_nil. intros [].
  - destruct n as [|n]; cbn; [intros []|].
    intros [<-|Ha] Hb.
    + rewrite Forall_forall in Hx. apply Hx.
      rewrite <- (firstn_skipn n l). apply in_or_app. now right.
    + eapply IH; eassumption.
Qed.

(** ** The sort inside [value_counts] *)

Lemma stable_sort_descending (t : list (string * nat)) :
  StronglySorted (fun a b => (snd b <= snd a)%nat)
                 (stable_sort (fun a b => (snd b <=? snd a)%nat) t).
Proof.
  eapply StronglySorted_weaken; [|apply stable_sort_sorted].
  - intros a b _ _ H. now apply Nat.leb_le.
  - intros a b. destruct (Nat.leb_spec (snd b) (snd a)); [now left|right].
    apply Nat.leb_le. lia.
  - intros a b c H1 H2. apply Nat.leb_le in H1, H2. apply Nat.leb_le. lia.
Qed.

Lemma stable_sort_rev_perm (t : list (string * nat)) :
  Permutation (stable_sort (fun a b => (snd b <=? snd a)%nat) (rev t)) t.
Proof.
  rewrite stable_sort_perm. symmetry. apply Permutation_rev.
Qed.

(** A stable sort: equal counts stay in order of first occurrence. *)
#[global] Instance first_seen_ties : SortValues := {|
  sort_values := stable_sort (fun a b => (snd b <=? snd a)%nat);
  sort_values_perm := stable_sort_perm _;
  sort_values_descending := stable_sort_descending
|}.

(** A sort that lists equal counts newest first, as pandas 2.2 was seen to
    do on the tools A, B, C, C, D, D.  Where no sort is named,
    [first_seen_ties] is the one used. *)
#[global] Instance newest_first_ties : SortValues | 10 := {|
  sort_values := fun t => stable_sort (fun a b => (snd b <=? snd a)%nat) (rev t);
  sort_values_perm := stable_sort_rev_perm;
  sort_values_descending := fun t => stable_sort_descending (rev t)
|}.

(** ** Code point order *)

Lemma str_leb_total (a b : string) : str_leb a b = true \/ str_leb b a = true.
Proof.
  unfold str_leb. rewrite (String.compare_antisym a b).
  destruct (String.compare b a); cbn; auto.
Qed.

Lemma str_leb_trans (a b c : string) :
  str_leb a b = true -> str_leb b c = true -> str_leb a c = true.
Proof.
  unfold str_leb. intros Hab Hbc.
  destruct (String.compare a c) eqn:Hac; try reflexivity.
  exfalso.
  assert (Hca : String_as_OT.lt c a).
  { apply String_as_OT.cmp_lt. unfold String_as_OT.cmp.
    rewrite String.compare_antisym, Hac. reflexivity. }
  destruct (String.compare a b) eqn:Eab; [| |discriminate];
    destruct (String.compare b c) eqn:Ebc; try discriminate.
  - apply String.compare_eq_iff in Eab, Ebc. subst.
    exact (String_as_OT.lt_not_eq _ _ Hca eq_refl).
  - apply String.compare_eq_iff in Eab. subst b.
    apply String_as_OT.cmp_lt in Ebc.
    exact (String_as_OT.lt_not_eq _ _ (String_as_OT.lt_trans _ _ _ Hca Ebc) eq_refl).
  - apply String.compare_eq_iff in Ebc. subst c.
    apply String_as_OT.cmp_lt in Eab.
    exact (String_as_OT.lt_not_eq _ _ (String_as_OT.lt_trans _ _ _ Hca Eab) eq_refl).
  - apply String_as_OT.cmp_lt in Eab, Ebc.
    pose proof (String_as_OT.lt_trans _ _ _ Eab Ebc) as Hlt.
    exact (String_as_OT.lt_not_eq _ _ (String_as_OT.lt_trans _ _ _ Hca Hlt) eq_refl).
Qed.

Lemma str_leb_lt (a b : string) : str_leb a b = true -> a <> b -> str_lt a b.
Proof.
  unfold str_leb, str_lt. intros H Hne.
  destruct (String.compare a b) eqn:E; [|reflexivity|discriminate].
  apply String.compare_eq_iff in E. contradiction.
Qed.

(** ** Counting *)

Lemma str_in_In (x : string) (l : list string) : str_in x l = true <-> In x l.
Proof.
  induction l as [|y l IH]; cbn; [split; [discriminate|tauto]|].
  rewrite orb_true_iff, IH, String.eqb_eq. tauto.
Qed.

Lemma count_of_pos (x : string) (l : list string) :
  In x l <-> (1 <= count_of x l)%nat.
Proof.
  induction l as [|y l IH]; cbn; [split; [tauto|lia]|].
  destruct (String.eqb_spec y x) as [->|Hne]; [split; [lia|auto]|].
  rewrite <- IH. split; [intros [H|H]; [contradiction|assumption]|auto].
Qed.

Lemma unique_In (x : string) (l : list string) : In x (unique l) <-> In x l.
Proof.
  induction l as [|y l IH]; cbn; [tauto|].
  rewrite filter_In, IH, negb_true_iff, String.eqb_neq.
  destruct (string_dec y x) as [->|]; [tauto|].
  split; [tauto|]. intros [H|H]; [contradiction|]. right. split; congruence.
Qed.

Lemma unique_NoDup (l : list string) : NoDup (unique l).
Proof.
  induction l as [|y l IH]; cbn; constructor.
  - rewrite filter_In, negb_true_iff, String.eqb_neq. tauto.
  - now apply NoDup_filter.
Qed.

Lemma count_of_NoDup (x : string) (u : list string) :
  NoDup u -> In x u -> count_of x u = 1%nat.
Proof.
  induction 1 as [|y u Hy Hu IH]; cbn; [tauto|].
  destruct (String.eqb_spec y x) as [->|Hne].
  - intros _. f_equal.
    destruct (count_of x u) eqn:E; [reflexivity|].
    exfalso. apply Hy, count_of_pos. lia.
  - intros [H|H]; [contradiction|auto].
Qed.

Lemma total_cons (kn : string * nat) (t : list (string * nat)) :
  total (kn :: t) = (snd kn + total t)%nat.
Proof. reflexivity. Qed.

Lemma total_counts_cons (y : string) (l u : list string) :
  total (map (fun x => (x, count_of x (y :: l))) u)
  = (total (map (fun x => (x, count_of x l)) u) + count_of y u)%nat.
Proof.
  induction u as [|x u IH]; [reflexivity|].
  cbn [map]. rewrite !total_cons, IH. cbn [snd count_of].
  rewrite (String.eqb_sym x y). destruct (y =? x); lia.
Qed.

Lemma total_counts (l u : list string) :
  NoDup u -> (forall x, In x l -> In x u) ->
  total (map (fun x => (x, count_of x l)) u) = List.length l.
Proof.
  intros Hu. induction l as [|y l IH]; intros Hin.
  - clear Hu Hin. induction u as [|x u IHu]; [reflexivity|].
    cbn [map]. rewrite total_cons, IHu. reflexivity.
  - rewrite total_counts_cons, IH by (intros x Hx; apply Hin; now right).
    rewrite count_of_NoDup; [cbn; lia|assumption|apply Hin; now left].
Qed.

Lemma total_perm (t t' : list (string * nat)) :
  Permutation t t' -> total t = total t'.
Proof.
  induction 1 as [|x t t' _ IH|x y t|t t' t'' _ IH1 _ IH2];
    rewrite ?total_cons; lia.
Qed.

Lemma count_at_in (t : list (string * nat)) (k : string) (n : nat) :
  NoDup (map fst t) -> In (k, n) t -> count_at t k = n.
Proof.
  induction t as [|[k' n'] t IH]; cbn; [tauto|].
  intros Hnd [H|H].
  - injection H as -> ->. now rewrite String.eqb_refl.
  - inversion Hnd as [|? ? Hk Hnd']; subst.
    destruct (String.eqb_spec k' k) as [->|]; [|auto].
    exfalso. apply Hk. apply in_map_iff. now exists (k, n).
Qed.

Lemma count_at_absent (t : list (string * nat)) (k : string) :
  ~ In k (map fst t) -> count_at t k = 0%nat.
Proof.
  induction t as [|[k' n'] t IH]; cbn; [reflexivity|].
  intros H. destruct (String.eqb_spec k' k) as [->|]; [tauto|].
  apply IH. tauto.
Qed.

(** *** [value_counts] *)

Section ValueCounts.

Context {sorter : SortValues}.

Lemma value_counts_perm (l : list string) :
  Permutation (value_counts l) (map (fun x => (x, count_of x l)) (unique l)).
Proof. apply sort_values_perm. Qed.

Lemma value_counts_labels (l : list string) :
  Permutation (map fst (value_counts l)) (unique l).
Proof.
  rewrite (Permutation_map fst (value_counts_perm l)), map_map. cbn.
  now rewrite map_id.
Qed.

Lemma value_counts_NoDup (l : list string) : NoDup (map fst (value_counts l)).
Proof.
  eapply Permutation_NoDup; [symmetry; apply value_counts_labels|].
  apply unique_NoDup.
Qed.

Lemma value_counts_in (l : list string) (x : string) (n : nat) :
  In (x, n) (value_counts l) <-> In x l /\ n = count_of x l.
Proof.
  assert (H : In (x, n) (value_counts l)
              <-> In (x, n) (map (fun x => (x, count_of x l)) (unique l))).
  { split; apply Permutation_in;
      [apply value_counts_perm|symmetry; apply value_counts_perm]. }
  rewrite H, in_map_iff. split.
  - intros (y & [= -> <-] & Hy). split; [now apply unique_In|reflexivity].
  - intros [Hx ->]. exists x. split; [reflexivity|now apply unique_In].
Qed.

Lemma value_counts_total (l : list string) :
  total (value_counts l) = List.length l.
Proof.
  rewrite (total_perm _ _ (value_counts_perm l)).
  apply total_counts; [apply unique_NoDup|intros x; apply unique_In].
Qed.

Lemma value_counts_count_at (l : list string) (x : string) :
  count_at (value_counts l) x = count_of x l.
Proof.
  destruct (in_dec string_dec x l) as [Hx|Hx].
  - apply count_at_in; [apply value_counts_NoDup|].
    now apply value_counts_in.
  - rewrite count_at_absent.
    + destruct (count_of x l) eqn:E; [reflexivity|].
      exfalso. apply Hx, count_of_pos. lia.
    + intros H. apply Hx, unique_In.
      eapply Permutation_in; [apply value_counts_labels|exact H].
Qed.

Lemma value_counts_descending (l : list string) :
  StronglySorted (fun a b => (snd b <= snd a)%nat) (value_counts l).
Proof. apply sort_values_descending. Qed.

End ValueCounts.

Lemma unique_first_index (l : list string) :
  StronglySorted (fun a b => (first_index a l < first_index b l)%nat) (unique l).
Proof.
  induction l as [|x l IH]; cbn [unique]; constructor.
  - apply StronglySorted_filter with (f := fun y => negb (y =? x)) in IH.
    eapply StronglySorted_weaken; [|exact IH].
    intros a b Ha Hb Hab. apply filter_In in Ha as [_ Ha], Hb as [_ Hb].
    apply negb_true_iff in Ha, Hb. cbn beta in Hab. cbn.
    rewrite (String.eqb_sym x a), (String.eqb_sym x b), Ha, Hb. lia.
  - rewrite Forall_forall. intros y Hy. apply filter_In in Hy as [_ Hy].
    apply negb_true_iff in Hy. cbn.
    rewrite String.eqb_refl, (String.eqb_sym x y), Hy. lia.
Qed.

Lemma value_counts_ranked (l : list string) :
  StronglySorted (ranks_before l) (value_counts (sorter := first_seen_ties) l).
Proof.
  unfold value_counts. cbn [sort_values first_seen_ties].
  apply (stable_sort_ranked _ snd (fun a => first_index (fst a) l));
    [reflexivity|].
  apply StronglySorted_map with (R := fun a b : string * nat =>
    (first_index (fst a) l < first_index (fst b) l)%nat).
  apply unique_first_index.
Qed.

Lemma count_at_perm (t t' : list (string * nat)) (k : string) :
  NoDup (map fst t) -> Permutation t t' -> count_at t k = count_at t' k.
Proof.
  intros Hnd Hp.
  assert (Hnd' : NoDup (map fst t'))
    by (eapply Permutation_NoDup; [apply Permutation_map, Hp|exact Hnd]).
  destruct (in_dec string_dec k (map fst t)) as [Hk|Hk].
  - apply in_map_iff in Hk as ([k0 n] & Hfst & Hin). cbn in Hfst. subst k0.
    rewrite (count_at_in t k n Hnd Hin).
    symmetry. apply count_at_in; [assumption|].
    eapply Permutation_in; eassumption.
  - rewrite (count_at_absent t k Hk). symmetry. apply count_at_absent.
    intros H. apply Hk.
    eapply Permutation_in; [symmetry; apply Permutation_map, Hp|exact H].
Qed.

Lemma count_of_filter (f : string -> bool) (x : string) (l : list string) :
  f x = true -> count_of x (filter f l) = count_of x l.
Proof.
  intros Hx. induction l as [|y l IH]; [reflexivity|].
  cbn. destruct (f y) eqn:Hy; cbn; rewrite IH; [reflexivity|].
  destruct (String.eqb_spec y x) as [->|]; [congruence|reflexivity].
Qed.

Lemma first_index_filter (f : string -> bool) (x y : string) (l : list string) :
  f x = true -> f y = true -> In x l ->
  (first_index x (filter f l) < first_index y (filter f l))%nat ->
  (first_index x l < first_index y l)%nat.
Proof.
  intros Hx Hy. induction l as [|h l IH]; [intros []|].
  intros Hin. cbn [filter]. destruct (f h) eqn:Hh; cbn [first_index].
  - destruct (String.eqb_spec h x) as [Hhx|Hhx];
      destruct (String.eqb_spec h y) as [Hhy|Hhy]; try lia.
    intros H. apply -> Nat.succ_lt_mono.
    apply IH; [destruct Hin; [contradiction|assumption]|lia].
  - destruct (String.eqb_spec h x) as [Hhx|Hhx]; [congruence|].
    destruct (String.eqb_spec h y) as [Hhy|Hhy]; [congruence|].
    intros H. apply -> Nat.succ_lt_mono.
    apply IH; [destruct Hin; [contradiction|assumption]|assumption].
Qed.

(** ** Strings *)

Lemma append_empty (s : string) : s ++ "" = s.
Proof. induction s as [|c s IH]; cbn; [reflexivity|now rewrite IH]. Qed.

Lemma slice_to_all (n : nat) (s : string) :
  (String.length s <= n)%nat -> slice_to n s = s.
Proof.
  unfold slice_to. revert n. induction s as [|c s IH]; intros n H.
  - now destruct n.
  - destruct n as [|n]; cbn in *; [lia|]. rewrite IH; [reflexivity|lia].
Qed.

Lemma slice_to_length (n : nat) (s : string) :
  (n <= String.length s)%nat -> String.length (slice_to n s) = n.
Proof.
  unfold slice_to. revert n. induction s as [|c s IH]; intros n H.
  - destruct n; cbn in *; [reflexivity|lia].
  - destruct n as [|n]; cbn in *; [reflexivity|]. rewrite IH; [reflexivity|lia].
Qed.

Lemma append_length (s t : string) :
  String.length (s ++ t) = (String.length s + String.length t)%nat.
Proof. induction s as [|c s IH]; cbn; [reflexivity|now rewrite IH]. Qed.

Lemma task_label_short (name : string) :
  (String.length name <= 50)%nat -> task_label name = name.
Proof.
  intros H. unfold task_label.
  destruct (Nat.ltb_spec 50 (String.length name)); [lia|].
  now rewrite append_empty, slice_to_all.
Qed.

Lemma task_label_long (name : string) :
  (50 < String.length name)%nat ->
  task_label name = slice_to 50 name ++ "..."
  /\ String.length (task_label name) = 53%nat.
Proof.
  intros H. unfold task_label.
  destruct (Nat.ltb_spec 50 (String.length name)); [|lia].
  split; [reflexivity|].
  rewrite append_length, slice_to_length by lia. reflexivity.
Qed.

(** ** Aggregate and project *)

Section AggregateFacts.

Context {number : Type} {sorter : SortValues}.

Implicit Types (f : list (DerivedRequest number)) (r : DerivedRequest number).

Lemma gantt_loop_acc (acc : list GanttRow) f :
  gantt_loop acc f = (acc ++ gantt_loop [] f)%list.
Proof.
  revert acc. induction f as [|r f IH]; intros acc; cbn.
  - now rewrite app_nil_r.
  - destruct (Start_Date r), (End_Date r); try apply IH.
    rewrite IH, (IH [_]). now rewrite app_assoc.
Qed.

Lemma gantt_data_cons r f :
  gantt_data (r :: f)
  = match Start_Date r, End_Date r with
    | Some s, Some e =>
        mkGantt (task_label (Name r)) s e (Requesting_Stakeholder r)
                (Status r) (Tool_Name r) (Timeline r) (Name r)
        :: gantt_data f
    | _, _ => gantt_data f
    end.
Proof.
  unfold gantt_data. cbn.
  destruct (Start_Date r), (End_Date r); try reflexivity.
  now rewrite gantt_loop_acc.
Qed.

(** C6. The chart holds one record for each filtered row whose two dates
    are defined, in the order of the rows and with their fields; its label
    is the name, cut to 50 characters and followed by "..." when the name is
    longer.  Rows without dates are left out of the chart only: the number
    of items and the counts by status, stakeholder and quarter count every
    row. *)
Theorem chart_rows_of_dated_rows f :
  map chart_fields (gantt_data f) = map request_fields (filter has_dates f)
  /\ Forall (fun g =>
       Task g = task_label (Full_Name g)
       /\ ((String.length (Full_Name g) <= 50)%nat -> Task g = Full_Name g)
       /\ ((50 < String.length (Full_Name g))%nat ->
           Task g = slice_to 50 (Full_Name g) ++ "..."
           /\ String.length (Task g) = 53%nat))
       (gantt_data f)
  /\ total_items f = List.length f
  /\ total (status_counts f) = List.length f
  /\ total (stakeholder_counts f) = List.length f
  /\ total (quarter_dist f) = List.length f
  /\ (forall r, In r f ->
        count_at (status_counts f) (Status r)
        = count_of (Status r) (map Status f)
        /\ count_at (stakeholder_counts f) (Requesting_Stakeholder r)
           = count_of (Requesting_Stakeholder r) (map Requesting_Stakeholder f)
        /\ count_at (quarter_dist f) (Timeline r)
           = count_of (Timeline r) (map (fun r => Timeline r) f)
        /\ (1 <= count_at (status_counts f) (Status r))%nat
        /\ (1 <= count_at (stakeholder_counts f) (Requesting_Stakeholder r))%nat
        /\ (1 <= count_at (quarter_dist f) (Timeline r))%nat)
  /\ (f <> [] ->
      exists rep, main_content f = Some rep
                  /\ chart_rows rep = gantt_data f
                  /\ total_count rep = List.length f
                  /\ status_counts_of rep = status_counts f
                  /\ stakeholder_counts_of rep = stakeholder_counts f
                  /\ bucket_counts rep = quarter_dist f).
Proof.
  assert (Hq : forall k, count_at (quarter_dist f) k
                         = count_of k (map (fun r => Timeline r) f)).
  { intros k. unfold quarter_dist, sort_index.
    rewrite <- value_counts_count_at. symmetry.
    apply count_at_perm; [apply value_counts_NoDup|].
    symmetry. apply stable_sort_perm. }
  split; [|split; [|split; [reflexivity|split; [|split; [|split; [|split]]]]]].
  - clear Hq. induction f as [|r f IH]; [reflexivity|].
    rewrite gantt_data_cons. cbn [filter]. unfold has_dates at 1.
    destruct (Start_Date r) eqn:Es, (End_Date r) eqn:Ee; try apply IH.
    cbn [map]. rewrite IH. f_equal.
    unfold chart_fields, request_fields. cbn. now rewrite Es, Ee.
  - clear Hq. induction f as [|r f IH]; [constructor|].
    rewrite gantt_data_cons.
    destruct (Start_Date r), (End_Date r); try apply IH.
    constructor; [|apply IH]. cbn.
    split; [reflexivity|].
    split; [apply task_label_short|apply task_label_long].
  - unfold status_counts. now rewrite value_counts_total, length_map.
  - unfold stakeholder_counts. now rewrite value_counts_total, length_map.
  - unfold quarter_dist, sort_index.
    rewrite (total_perm _ _ (stable_sort_perm _ _)).
    now rewrite value_counts_total, length_map.
  - intros r Hr. unfold status_counts, stakeholder_counts.
    rewrite !value_counts_count_at, Hq.
    repeat split; apply count_of_pos, in_map_iff; exists r; auto.
  - intros Hne. destruct f as [|r f]; [contradiction|].
    eexists. split; [reflexivity|]. repeat split.
Qed.

End AggregateFacts.

Lemma chart_rows_of_dated_rows_witness :
  count_at (status_counts [req_X; req_Y]) "" = 1%nat
  /\ map Full_Name (gantt_data [req_X; req_Y]) = ["X"]
  /\ exists rep, main_content [req_X; req_Y] = Some rep
                 /\ total_count rep = 2%nat.
Proof.
  pose proof (chart_rows_of_dated_rows [req_X; req_Y])
    as (_ & _ & _ & _ & _ & _ & Hcount & Hrep).
  split; [|split].
  - destruct (Hcount req_Y) as (-> & _); [right; left; reflexivity|reflexivity].
  - reflexivity.
  - destruct Hrep as (rep & H1 & _ & H2 & _); [discriminate|].
    exists rep. split; [exact H1|exact H2].
Defined.

Section RankingFacts.

Context {number : Type} {sorter : SortValues}.

Implicit Types (f : list (DerivedRequest number)) (r : DerivedRequest number).

Lemma StronglySorted_firstn {A : Type} (R : A -> A -> Prop) (n : nat)
    (l : list A) :
  StronglySorted R l -> StronglySorted R (firstn n l).
Proof.
  intros Hl. revert n. induction Hl as [|a l Hl IH Ha]; intros n.
  - rewrite firstn_nil. constructor.
  - destruct n as [|n]; cbn; constructor; [apply IH|].
    rewrite Forall_forall in Ha |- *. intros b Hb. apply Ha.
    rewrite <- (firstn_skipn n l). apply in_or_app. now left.
Qed.

Lemma tool_names (f : list (DerivedRequest number)) :
  map Tool_Name (filter (fun r => negb (Tool_Name r =? "")) f)
  = filter (fun x => negb (x =? "")) (map Tool_Name f).
Proof.
  induction f as [|r f IH]; [reflexivity|].
  cbn. destruct (negb (Tool_Name r =? "")); cbn; now rewrite IH.
Qed.

Lemma tool_entry f (x : string) (n : nat) :
  In (x, n)
     (value_counts (map Tool_Name (filter (fun r => negb (Tool_Name r =? "")) f)))
  <-> x <> "" /\ In x (map Tool_Name f) /\ n = count_of x (map Tool_Name f).
Proof.
  rewrite value_counts_in, tool_names, filter_In, negb_true_iff, String.eqb_neq.
  split.
  - intros ((Hx & Hne) & ->). repeat split; [assumption..|].
    apply count_of_filter. now apply negb_true_iff, String.eqb_neq.
  - intros (Hne & Hx & ->). repeat split; [assumption..|].
    symmetry. apply count_of_filter. now apply negb_true_iff, String.eqb_neq.
Qed.

(** C9, as the code has it.  The top tools are the first five entries of
    [value_counts] over the non-empty tool names of the filtered rows: each
    name once with its number of rows, the larger count first, and no name
    left out has a larger count than a name listed.  There are fewer than
    five entries exactly when there are fewer than five distinct non-empty
    names.  The order between equal counts is the one [value_counts]
    returns. *)
Theorem tool_counts_top_five f :
  let tools := map Tool_Name (filter (fun r => negb (Tool_Name r =? "")) f) in
  tool_counts f = firstn 5 (value_counts tools)
  /\ StronglySorted (fun a b => (snd b <= snd a)%nat) (tool_counts f)
  /\ NoDup (map fst (tool_counts f))
  /\ List.length (tool_counts f) = Nat.min 5 (List.length (unique tools))
  /\ (forall x n, In (x, n) (tool_counts f) ->
        x <> "" /\ In x (map Tool_Name f)
        /\ n = count_of x (map Tool_Name f) /\ (1 <= n)%nat)
  /\ (forall x, x <> "" -> In x (map Tool_Name f) ->
        ~ In x (map fst (tool_counts f)) ->
        forall b, In b (tool_counts f) ->
                  (count_of x (map Tool_Name f) <= snd b)%nat).
Proof.
  intros tools.
  assert (Hsub : forall a, In a (tool_counts f) -> In a (value_counts tools)).
  { intros a Ha. unfold tool_counts, head in Ha.
    rewrite <- (firstn_skipn 5 (value_counts tools)).
    apply in_or_app. now left. }
  split; [reflexivity|]. split; [|split; [|split; [|split]]].
  - apply StronglySorted_firstn, value_counts_descending.
  - unfold tool_counts, head. fold tools.
    pose proof (value_counts_NoDup tools) as Hnd.
    rewrite <- (firstn_skipn 5 (value_counts tools)), map_app in Hnd.
    now apply NoDup_app_remove_r in Hnd.
  - unfold tool_counts, head. fold tools.
    rewrite length_firstn. f_equal.
    rewrite <- (length_map fst). apply Permutation_length, value_counts_labels.
  - intros x n Hxn. apply Hsub, tool_entry in Hxn as (Hne & Hx & ->).
    repeat split; [assumption..|]. now apply count_of_pos.
  - intros x Hne Hx Hout b Hb.
    assert (Hxin : In (x, count_of x (map Tool_Name f)) (value_counts tools))
      by (apply tool_entry; auto).
    rewrite <- (firstn_skipn 5 (value_counts tools)) in Hxin.
    apply in_app_or in Hxin as [Hfirst|Hrest].
    + exfalso. apply Hout. apply in_map_iff.
      exists (x, count_of x (map Tool_Name f)). split; [reflexivity|exact Hfirst].
    + exact (StronglySorted_split _ 5 _ (value_counts_descending tools)
                                  b _ Hb Hrest).
Qed.

(** C5, as the code has it.  The quarterly distribution holds each label of
    the filtered rows once, with its count, in ascending code point order of
    the labels.  Among the labels of one year of the quarter table this is
    the calendar order. *)
Theorem quarter_dist_label_order f :
  StronglySorted str_lt (map fst (quarter_dist f))
  /\ (forall q n, In (q, n) (quarter_dist f)
                  <-> In q (map (fun r => Timeline r) f)
                      /\ n = count_of q (map (fun r => Timeline r) f))
  /\ (forall a b,
        (In a ["Q1 2025"; "Q2 2025"; "Q3 2025"; "Q4 2025"]
         /\ In b ["Q1 2025"; "Q2 2025"; "Q3 2025"; "Q4 2025"])
        \/ (In a ["Q1 2026"; "Q2 2026"; "Q3 2026"; "Q4 2026"]
            /\ In b ["Q1 2026"; "Q2 2026"; "Q3 2026"; "Q4 2026"]) ->
        (str_lt a b <-> chronological a b)).
Proof.
  set (l := map (fun r => Timeline r) f).
  split; [|split].
  - unfold quarter_dist, sort_index. fold l.
    set (leb := fun a b : string * nat => str_leb (fst a) (fst b)).
    assert (Hs : StronglySorted (fun a b => leb a b = true)
                   (stable_sort leb (value_counts l))).
    { apply stable_sort_sorted; subst leb; cbn.
      - intros a b. apply str_leb_total.
      - intros a b c. apply str_leb_trans. }
    assert (Hnd : NoDup (map fst (stable_sort leb (value_counts l)))).
    { eapply Permutation_NoDup; [|apply (value_counts_NoDup l)].
      apply Permutation_map. symmetry. apply stable_sort_perm. }
    induction Hs as [|a s Hs IH Ha]; cbn; [constructor|].
    inversion Hnd as [|? ? Hna Hnd']; subst.
    constructor; [auto|].
    rewrite Forall_forall in Ha |- *. intros k Hk.
    apply in_map_iff in Hk as (b & <- & Hb).
    apply str_leb_lt; [apply (Ha b Hb)|].
    intros Heq. apply Hna. rewrite Heq. now apply in_map.
  - intros q n. unfold quarter_dist, sort_index. fold l.
    rewrite stable_sort_in. apply value_counts_in.
  - intros a b H. cbn [In] in H.
    repeat match goal with
           | H : _ \/ _ |- _ => destruct H
           | H : _ /\ _ |- _ => destruct H
           | H : False |- _ => destruct H
           end; subst; vm_compute; split; congruence.
Qed.

End RankingFacts.

Lemma tool_counts_top_five_witness :
  "B" <> ""
  /\ count_of "B" (map Tool_Name
                      [request "a" "s" "A" "" "Q1 2025" (Num 1%Z);
                       request "b" "s" "B" "" "Q1 2025" (Num 1%Z);
                       request "c" "s" "" "" "Q1 2025" (Num 1%Z);
                       request "d" "s" "B" "" "Q1 2025" (Num 1%Z)])
     = 2%nat.
Proof.
  assert (Hin : In ("B", 2%nat)
                   (tool_counts
                      [request "a" "s" "A" "" "Q1 2025" (Num 1%Z);
                       request "b" "s" "B" "" "Q1 2025" (Num 1%Z);
                       request "c" "s" "" "" "Q1 2025" (Num 1%Z);
                       request "d" "s" "B" "" "Q1 2025" (Num 1%Z)]))
    by (left; reflexivity).
  destruct (proj1 (proj2 (proj2 (proj2 (proj2
              (tool_counts_top_five
                 [request "a" "s" "A" "" "Q1 2025" (Num 1%Z);
                  request "b" "s" "B" "" "Q1 2025" (Num 1%Z);
                  request "c" "s" "" "" "Q1 2025" (Num 1%Z);
                  request "d" "s" "B" "" "Q1 2025" (Num 1%Z)])))))
            "B" 2%nat Hin)
    as (Hne & _ & Hn & _).
  split; [exact Hne|]. symmetry. exact Hn.
Defined.

Lemma quarter_dist_label_order_witness :
  str_lt "Q2 2026" "Q3 2026" <-> chronological "Q2 2026" "Q3 2026".
Proof.
  apply (proj2 (proj2 (quarter_dist_label_order (number := Z) []))).
  right. split; cbn; tauto.
Defined.

(** C5, as the claim states it, fails: a row of "Q4 2025" and one of
    "Q1 2026" are listed with "Q1 2026" first, though "Q4 2025" is the
    earlier quarter. *)
Lemma quarter_dist_not_chronological :
  quarter_dist [req_late; req_next] = [("Q1 2026", 1%nat); ("Q4 2025", 1%nat)]
  /\ chronological "Q4 2025" "Q1 2026"
  /\ ~ StronglySorted chronological (map fst (quarter_dist [req_late; req_next])).
Proof.
  split; [reflexivity|]. split; [reflexivity|].
  intros H. change (map fst (quarter_dist [req_late; req_next]))
    with ["Q1 2026"; "Q4 2025"] in H.
  inversion H as [|? ? _ Hall]; subst.
  inversion Hall as [|? ? Hlt _]; subst.
  vm_compute in Hlt. discriminate.
Qed.

(** C9, as the claim states it, fails where the sort inside
    [value_counts] lists equal counts newest first: of the tools A, B, C, C,
    D, D the list is D, C, B, A, with D before C and B before A although C
    and A are met first. *)
Lemma tool_counts_ties_not_first_seen :
  tool_counts (sorter := newest_first_ties) rows_ABCCDD
  = [("D", 2%nat); ("C", 2%nat); ("B", 1%nat); ("A", 1%nat)]
  /\ (first_index "C" (map Tool_Name rows_ABCCDD)
      < first_index "D" (map Tool_Name rows_ABCCDD))%nat
  /\ ~ StronglySorted (ranks_before (map Tool_Name rows_ABCCDD))
                      (tool_counts (sorter := newest_first_ties) rows_ABCCDD).
Proof.
  split; [reflexivity|]. split; [cbn; lia|].
  intros H.
  change (tool_counts (sorter := newest_first_ties) rows_ABCCDD)
    with [("D", 2%nat); ("C", 2%nat); ("B", 1%nat); ("A", 1%nat)] in H.
  inversion H as [|? ? _ Hall]; subst.
  inversion Hall as [|? ? Hdc _]; subst.
  destruct Hdc as [Hlt|[_ Hlt]]; cbn in Hlt; lia.
Qed.

(** With a stable sort the order of the claim holds: equal counts are
    listed in the order in which the names are first met. *)
Lemma tool_counts_first_seen {number : Type} (f : list (DerivedRequest number)) :
  StronglySorted
    (ranks_before (map Tool_Name
                       (filter (fun r => negb (Tool_Name r =? "")) f)))
    (tool_counts (sorter := first_seen_ties) f).
Proof.
  apply StronglySorted_firstn, value_counts_ranked.
Qed.

Lemma str_lt_asym (a b : string) : str_lt a b -> str_lt b a -> False.
Proof.
  unfold str_lt. intros Hab Hba.
  apply String_as_OT.cmp_lt in Hab, Hba.
  exact (String_as_OT.lt_not_eq _ _ (String_as_OT.lt_trans _ _ _ Hab Hba) eq_refl).
Qed.

Lemma sorted_by_label_unique (l1 l2 : list (string * nat)) :
  StronglySorted (fun a b => str_lt (fst a) (fst b)) l1 ->
  StronglySorted (fun a b => str_lt (fst a) (fst b)) l2 ->
  Permutation l1 l2 -> l1 = l2.
Proof.
  intros H1. revert l2. induction H1 as [|a l1 H1 IH Ha]; intros l2 H2 Hp.
  - now apply Permutation_nil in Hp.
  - destruct H2 as [|b l2 H2 Hb].
    + apply Permutation_sym, Permutation_nil in Hp. discriminate.
    + assert (a = b).
      { assert (Hain : In a (b :: l2))
          by (eapply Permutation_in; [exact Hp|now left]).
        assert (Hbin : In b (a :: l1))
          by (eapply Permutation_in; [symmetry; exact Hp|now left]).
        destruct Hain as [->|Hain]; [reflexivity|].
        destruct Hbin as [->|Hbin]; [reflexivity|].
        rewrite Forall_forall in Ha, Hb.
        destruct (str_lt_asym _ _ (Ha b Hbin) (Hb a Hain)). }
      subst b. f_equal. apply IH; [assumption|].
      eapply Permutation_cons_inv, Hp.
Qed.

Lemma sort_index_sorted (t : list (string * nat)) :
  NoDup (map fst t) ->
  StronglySorted (fun a b => str_lt (fst a) (fst b)) (sort_index t).
Proof.
  intros Hnd. unfold sort_index.
  set (leb := fun a b : string * nat => str_leb (fst a) (fst b)).
  assert (Hs : StronglySorted (fun a b => leb a b = true) (stable_sort leb t)).
  { apply stable_sort_sorted; subst leb; cbn.
    - intros a b. apply str_leb_total.
    - intros a b c. apply str_leb_trans. }
  assert (Hnd' : NoDup (map fst (stable_sort leb t))).
  { eapply Permutation_NoDup; [|exact Hnd].
    apply Permutation_map. symmetry. apply stable_sort_perm. }
  induction Hs as [|a l Hs IH Ha]; [constructor|].
  cbn in Hnd'. inversion Hnd' as [|? ? Hna Hnd'']; subst.
  constructor; [auto|].
  rewrite Forall_forall in Ha |- *. intros b Hb.
  apply str_leb_lt; [apply (Ha b Hb)|].
  intros Heq. apply Hna. rewrite Heq. now apply in_map.
Qed.

(** The quarterly distribution does not depend on the order in which
    [value_counts] leaves equal counts. *)
Lemma quarter_dist_any_sort {number : Type} (s1 s2 : SortValues)
    (f : list (DerivedRequest number)) :
  quarter_dist (sorter := s1) f = quarter_dist (sorter := s2) f.
Proof.
  assert (Hs : forall s : SortValues,
             StronglySorted (fun a b => str_lt (fst a) (fst b))
                            (quarter_dist (sorter := s) f)).
  { intros s. apply sort_index_sorted, value_counts_NoDup. }
  apply sorted_by_label_unique; [apply Hs..|].
  unfold quarter_dist, sort_index.
  rewrite !stable_sort_perm, !value_counts_perm. reflexivity.
Qed.

(** ** Column labels *)

Lemma index_of_none (label : string) (cols : list string) :
  index_of label cols = None <-> ~ In label cols.
Proof.
  induction cols as [|c cols IH]; cbn; [tauto|].
  destruct (String.eqb_spec c label) as [->|Hne].
  - split; [discriminate|tauto].
  - destruct (index_of label cols); cbn.
    + split; [discriminate|]. intros H. exfalso. apply H. right.
      apply Decidable.not_not; [|intros Hn; apply IH in Hn; discriminate].
      destruct (in_dec string_dec label cols); [now left|now right].
    + split; [|reflexivity]. intros _ [H|H]; [contradiction|].
      now apply (proj1 IH).
Qed.

Lemma index_of_nth (label : string) (cols : list string) (i : nat) :
  index_of label cols = Some i -> nth_error cols i = Some label.
Proof.
  revert i. induction cols as [|c cols IH]; intros i; cbn; [discriminate|].
  destruct (String.eqb_spec c label) as [->|Hne]; [now intros [= <-]|].
  destruct (index_of label cols) as [j|]; cbn; [|discriminate].
  intros [= <-]. cbn. now apply IH.
Qed.


Lemma getitem_ok (cols : list string) (label : string) (i : nat) :
  getitem cols label = Ok i ->
  index_of label cols = Some i /\ count_of label cols = 1%nat.
Proof.
  unfold getitem. destruct (index_of label cols) as [j|]; [|discriminate].
  destruct (Nat.eqb_spec (count_of label cols) 1); [|discriminate].
  now intros [= ->].
Qed.

Lemma getitem_absent (cols : list string) (label : string) :
  ~ In label cols -> getitem cols label = Raise (KeyError label).
Proof.
  intros H. unfold getitem. apply index_of_none in H. now rewrite H.
Qed.

Lemma getitem_present (cols : list string) (label : string) :
  NoDup cols -> In label cols -> exists i, getitem cols label = Ok i.
Proof.
  intros Hnd Hin. unfold getitem.
  destruct (index_of label cols) as [i|] eqn:E.
  - rewrite (count_of_NoDup _ _ Hnd Hin). now exists i.
  - apply index_of_none in E. contradiction.
Qed.

Lemma getitem_in (cols : list string) (label : string) (i : nat) :
  getitem cols label = Ok i -> In label cols.
Proof.
  intros H. apply getitem_ok in H as [H _].
  apply index_of_nth in H. eapply nth_error_In, H.
Qed.

(** ** Ingest and clean *)

Section IngestFacts.

Context {number : Type} {numeric : Numeric number}.

Lemma clean_names_named (i : nat) (data : list (list (Cell number))) :
  clean_names i data = filter (fun r => named (cell i r)) data.
Proof.
  unfold clean_names, drop_empty_name, dropna_name.
  rewrite filter_twice. apply filter_ext. intros r.
  destruct (cell i r); reflexivity.
Qed.


Lemma process_ok (sh : Sheet number) (df : DataFrame number) :
  process sh = Ok df ->
  exists i_name i_quarter i_status i_score,
    getitem (header sh) "Name" = Ok i_name
    /\ str_accessor (map (cell i_name) (body sh)) = Ok tt
    /\ getitem (map strip (header sh)) "Quarter Date" = Ok i_quarter
    /\ getitem (map strip (header sh)) "Status" = Ok i_status
    /\ getitem (map strip (header sh)) "Total Priority Score" = Ok i_score
    /\ assigned (map strip (header sh)) "Timeline" = Ok tt
    /\ assigned (map strip (header sh)) "End_Date" = Ok tt
    /\ df = mkFrame (map strip (header sh))
              (map (fun r => mkRow r (derive (cell i_quarter r) (cell i_status r)
                                             (cell i_score r)))
                   (map (map fillna) (clean_names i_name (body sh)))).
Proof.
  unfold process.
  destruct (getitem (header sh) "Name") as [i|] eqn:E1; cbn; [|discriminate].
  destruct (str_accessor (map (cell i) (body sh))) as [[]|] eqn:E2; cbn;
    [|discriminate].
  destruct (getitem (map strip (header sh)) "Quarter Date") as [iq|] eqn:E3;
    cbn; [|discriminate].
  destruct (assigned (map strip (header sh)) "Timeline") as [[]|] eqn:E6;
    cbn; [|discriminate].
  destruct (assigned (map strip (header sh)) "End_Date") as [[]|] eqn:E7;
    cbn; [|discriminate].
  destruct (getitem (map strip (header sh)) "Status") as [ist|] eqn:E4;
    cbn; [|discriminate].
  destruct (getitem (map strip (header sh)) "Total Priority Score")
    as [isc|] eqn:E5; cbn; [|discriminate].
  intros [= <-]. exists i, iq, ist, isc. repeat split; assumption.
Qed.



End IngestFacts.


Section IngestFailures.

Context {number : Type} {numeric : Numeric number}.

Lemma load_workbook (sh : Sheet number) :
  load_and_process_data (Some (Workbook sh))
  = (df <- process sh ;; Ok (Some df)).
Proof. reflexivity. Qed.

Lemma process_raises_without (sh : Sheet number) (label : string) :
  In label ["Name"; "Quarter Date"; "Status"; "Total Priority Score"] ->
  ~ In label (map strip (header sh)) ->
  exists e, process sh = Raise e.
Proof.
  intros Hl Habs. unfold process.
  destruct (getitem (header sh) "Name") as [i|e] eqn:E1; cbn; [|now exists e].
  destruct (str_accessor (map (cell i) (body sh))) as [[]|e]; cbn;
    [|now exists e].
  destruct (getitem (map strip (header sh)) "Quarter Date") as [iq|e] eqn:E2;
    cbn; [|now exists e].
  destruct (assigned (map strip (header sh)) "Timeline") as [[]|e]; cbn;
    [|now exists e].
  destruct (assigned (map strip (header sh)) "End_Date") as [[]|e]; cbn;
    [|now exists e].
  destruct (getitem (map strip (header sh)) "Status") as [ist|e] eqn:E3;
    cbn; [|now exists e].
  destruct (getitem (map strip (header sh)) "Total Priority Score")
    as [isc|e] eqn:E4; cbn; [|now exists e].
  exfalso. apply Habs.
  cbn [In] in Hl. destruct Hl as [<-|[<-|[<-|[<-|[]]]]].
  - apply getitem_in in E1. apply (in_map strip) in E1. exact E1.
  - eapply getitem_in, E2.
  - eapply getitem_in, E3.
  - eapply getitem_in, E4.
Qed.

(** C8, as the code has it.  Ingest raises, and returns no frame, when the
    file is no workbook and when 'Name', 'Quarter Date', 'Status' or
    'Total Priority Score' is absent from the trimmed header.
    'Requesting Stakeholder' and 'Tool Name' are not asked for: on a sheet
    whose trimmed labels are distinct, whose header holds 'Name' as written
    and whose 'Name' column has its [.str], ingest succeeds exactly when
    'Quarter Date', 'Status' and 'Total Priority Score' are present after
    trimming. *)
Theorem ingest_required_columns :
  load_and_process_data (number := number) (Some Unreadable) = Raise ValueError
  /\ (forall (sh : Sheet number) (label : string),
        In label ["Name"; "Quarter Date"; "Status"; "Total Priority Score"] ->
        ~ In label (map strip (header sh)) ->
        exists e, load_and_process_data (Some (Workbook sh)) = Raise e)
  /\ (forall (sh : Sheet number) (i_name : nat),
        NoDup (map strip (header sh)) ->
        index_of "Name" (header sh) = Some i_name ->
        str_accessor (map (cell i_name) (body sh)) = Ok tt ->
        (succeeded (load_and_process_data (Some (Workbook sh))) = true
         <-> In "Quarter Date" (map strip (header sh))
             /\ In "Status" (map strip (header sh))
             /\ In "Total Priority Score" (map strip (header sh)))).
Proof.
  split; [reflexivity|]. split.
  - intros sh label Hl Habs. rewrite load_workbook.
    destruct (process_raises_without sh label Hl Habs) as (e & ->).
    now exists e.
  - intros sh i Hnd Hi Hs. rewrite load_workbook. split.
    + destruct (process sh) as [df|e] eqn:E; [intros _|discriminate].
      destruct (process_ok sh df E) as (_ & iq & ist & isc & _ & _ & Hq & Hst & Hsc & _).
      repeat split; eapply getitem_in; eassumption.
    + intros (Hq & Hst & Hsc).
      assert (Hname : getitem (header sh) "Name" = Ok i).
      { unfold getitem. rewrite Hi.
        rewrite count_of_NoDup; [reflexivity| |].
        - eapply NoDup_map_inv, Hnd.
        - apply index_of_nth in Hi. eapply nth_error_In, Hi. }
      destruct (getitem_present _ _ Hnd Hq) as (iq & Eq).
      destruct (getitem_present _ _ Hnd Hst) as (ist & Est).
      destruct (getitem_present _ _ Hnd Hsc) as (isc & Esc).
      unfold process. rewrite Hname; cbn. rewrite Hs; cbn.
      rewrite Eq; cbn. rewrite !(assigned_distinct _ _ Hnd); cbn.
      rewrite Est; cbn. rewrite Esc; cbn. reflexivity.
Qed.

End IngestFailures.

Lemma ingest_required_columns_witness :
  (exists e, load_and_process_data
               (Some (Workbook (mkSheet ["Name"; "Status"] [[Str "X"; Str (number:=Z) ""]])))
             = Raise e)
  /\ succeeded (load_and_process_data (Some (Workbook sheet_without_tool))) = true.
Proof.
  pose proof (@ingest_required_columns Z int_numeric) as (_ & Hraise & Hok).
  split.
  - apply (Hraise _ "Quarter Date").
    + right; left; reflexivity.
    + cbn. intros [H|[H|[]]]; discriminate.
  - apply (Hok sheet_without_tool 0%nat).
    + cbn. repeat constructor; cbn; intuition discriminate.
    + reflexivity.
    + reflexivity.
    + cbn. tauto.
Defined.

(** C8, as the claim states it, fails: a sheet without the 'Tool Name'
    column is ingested, and a frame with its row comes back. *)
Lemma ingest_accepts_sheet_without_tool :
  ~ In "Tool Name" (map strip (header sheet_without_tool))
  /\ succeeded (load_and_process_data (Some (Workbook sheet_without_tool))) = true
  /\ exists df, load_and_process_data (Some (Workbook sheet_without_tool))
                = Ok (Some df)
                /\ List.length (rows df) = 1%nat.
Proof.
  split; [|split; [reflexivity|]].
  - cbn. intros H. repeat destruct H as [H|H]; try discriminate. exact H.
  - eexists. split; [reflexivity|reflexivity].
Qed.

(** The label 'Name' is looked up on line 35, before the labels are trimmed
    on line 39: a header that holds it with a space in front is refused
    although the trimmed header has all six labels. *)
Lemma padded_name_label_raises :
  map strip (header sheet_padded_name) = roadmap_header
  /\ load_and_process_data (Some (Workbook sheet_padded_name))
     = Raise (KeyError "Name").
Proof. split; reflexivity. Qed.

(** Two labels that trim to 'Timeline' make line 59 select a frame: ingest
    raises although the six labels are found. *)
Lemma two_timeline_labels_raise :
  load_and_process_data (Some (Workbook sheet_two_timelines))
  = Raise (NotASeries "Timeline").
Proof. reflexivity. Qed.

(** * Further properties of the page *)

Lemma filter_swap {A : Type} (f g : A -> bool) (l : list A) :
  filter f (filter g l) = filter g (filter f l).
Proof.
  rewrite !filter_twice. apply filter_ext. intros a. apply andb_comm.
Qed.

Lemma filter_same {A : Type} (f : A -> bool) (l : list A) :
  filter f (filter f l) = filter f l.
Proof.
  rewrite filter_twice. apply filter_ext. intros a. apply andb_diag.
Qed.

Lemma count_of_all (t : string) (l : list string) :
  (forall x, In x l -> x = t) -> count_of t l = List.length l.
Proof.
  induction l as [|y l IH]; intros H; [reflexivity|].
  cbn. rewrite (H y (or_introl eq_refl)), String.eqb_refl. f_equal.
  apply IH. intros x Hx. apply H. now right.
Qed.

Lemma filter_none {A : Type} (f : A -> bool) (l : list A) :
  (forall x, In x l -> f x = false) -> filter f l = [].
Proof.
  induction l as [|y l IH]; intros H; [reflexivity|].
  cbn. rewrite (H y (or_introl eq_refl)). apply IH.
  intros x Hx. apply H. now right.
Qed.

Lemma unique_constant (t : string) (l : list string) :
  l <> [] -> (forall x, In x l -> x = t) -> unique l = [t].
Proof.
  destruct l as [|y l]; [contradiction|]. intros _ H.
  cbn. rewrite (H y (or_introl eq_refl)). f_equal.
  apply filter_none. intros x Hx. apply (proj1 (unique_In x l)) in Hx.
  rewrite (H x (or_intror Hx)), String.eqb_refl. reflexivity.
Qed.

Lemma value_counts_constant {sorter : SortValues} (t : string)
    (l : list string) :
  l <> [] -> (forall x, In x l -> x = t) ->
  value_counts l = [(t, List.length l)].
Proof.
  intros Hne H.
  pose proof (value_counts_perm l) as Hp.
  rewrite (unique_constant t l Hne H) in Hp. cbn in Hp.
  rewrite (count_of_all t l H) in Hp.
  apply Permutation_length_1_inv. symmetry. exact Hp.
Qed.

Lemma status_metric_count {number : Type} (label : string)
    (f : list (DerivedRequest number)) :
  status_metric label f = count_of label (map Status f).
Proof.
  unfold status_metric. induction f as [|r f IH]; [reflexivity|].
  cbn. destruct (Status r =? label); cbn; now rewrite IH.
Qed.

Lemma count_of_three (a b c : string) (l : list string) :
  a <> b -> a <> c -> b <> c ->
  (count_of a l + count_of b l + count_of c l <= List.length l)%nat.
Proof.
  intros Hab Hac Hbc. induction l as [|y l IH]; cbn; [lia|].
  destruct (String.eqb_spec y a), (String.eqb_spec y b),
    (String.eqb_spec y c); subst; try contradiction; lia.
Qed.

Lemma sorted_strict (l : list string) :
  NoDup l -> StronglySorted str_lt (sorted l).
Proof.
  intros Hnd. unfold sorted.
  assert (Hs : StronglySorted (fun a b => str_leb a b = true)
                 (stable_sort str_leb l))
    by (apply stable_sort_sorted; [apply str_leb_total|apply str_leb_trans]).
  assert (Hnd' : NoDup (stable_sort str_leb l))
    by (eapply Permutation_NoDup; [symmetry; apply stable_sort_perm|exact Hnd]).
  induction Hs as [|a s Hs IH Ha]; [constructor|].
  inversion Hnd' as [|? ? Hna Hnds]; subst.
  constructor; [auto|].
  rewrite Forall_forall in Ha |- *. intros b Hb.
  apply str_leb_lt; [auto|]. intros ->. contradiction.
Qed.

Section PageFacts.

Context {number : Type} {sorter : SortValues}.

Implicit Types (df f : list (DerivedRequest number)) (r : DerivedRequest number).

(** X1. The three restrictions commute: the rows selected do not depend on
    the order in which quarter, statuses and stakeholder are applied. *)
Theorem filters_commute df t st h :
  by_timeline t (by_status st df) = by_status st (by_timeline t df)
  /\ by_timeline t (by_stakeholder h df) = by_stakeholder h (by_timeline t df)
  /\ by_status st (by_stakeholder h df) = by_stakeholder h (by_status st df)
  /\ filtered_df df t st h
     = (let d := if negb (h =? "All") then by_stakeholder h df else df in
        let d := if negb (str_in "All" st) && truthy st
                 then by_status st d else d in
        if negb (t =? "All") then by_timeline t d else d).
Proof.
  unfold by_timeline, by_status, by_stakeholder.
  split; [apply filter_swap|]. split; [apply filter_swap|].
  split; [apply filter_swap|].
  unfold filtered_df, by_timeline, by_status, by_stakeholder. cbn zeta.
  destruct (negb (t =? "All")), (negb (str_in "All" st) && truthy st),
    (negb (h =? "All")); try reflexivity.
  - rewrite !filter_twice. apply filter_ext. intros r.
    destruct (Timeline r =? t), (str_in (Status r) st),
      (Requesting_Stakeholder r =? h); reflexivity.
  - apply filter_swap.
  - apply filter_swap.
  - apply filter_swap.
Qed.

(** X2. Filtering is idempotent, and narrowing in two steps equals
    filtering once: restricting the quarter and statuses first and the
    stakeholder afterwards gives the rows of the three restrictions
    together. *)
Theorem filtered_df_composes df t st h :
  filtered_df (filtered_df df t st h) t st h = filtered_df df t st h
  /\ filtered_df (filtered_df df t st "All") "All" ["All"] h
     = filtered_df df t st h
  /\ filtered_df (filtered_df df "All" ["All"] h) t st "All"
     = filtered_df df t st h.
Proof.
  split; [|split].
  - rewrite !filtered_df_steps.
    set (ft := fun r => implb (timeline_supplied t) (Timeline r =? t)).
    set (fs := fun r => implb (statuses_supplied st) (str_in (Status r) st)).
    set (fh := fun r => implb (stakeholder_supplied h)
                              (Requesting_Stakeholder r =? h)).
    rewrite !filter_twice. apply filter_ext. intros r.
    destruct (ft r), (fs r), (fh r); reflexivity.
  - rewrite !filtered_df_steps, !filter_twice. apply filter_ext. intros r.
    cbn.
    destruct (implb (timeline_supplied t) (Timeline r =? t)),
      (implb (statuses_supplied st) (str_in (Status r) st)),
      (implb (stakeholder_supplied h) (Requesting_Stakeholder r =? h));
      reflexivity.
  - rewrite !filtered_df_steps, !filter_twice. apply filter_ext. intros r.
    cbn.
    destruct (implb (timeline_supplied t) (Timeline r =? t)),
      (implb (statuses_supplied st) (str_in (Status r) st)),
      (implb (stakeholder_supplied h) (Requesting_Stakeholder r =? h));
      reflexivity.
Qed.

Lemma options_spec (column : list string) :
  exists tail, options column = "All" :: tail
               /\ StronglySorted str_lt tail
               /\ NoDup tail
               /\ forall x, In x tail <-> In x column.
Proof.
  exists (sorted (unique column)). split; [reflexivity|].
  split; [apply sorted_strict, unique_NoDup|]. split.
  - eapply Permutation_NoDup; [symmetry; apply stable_sort_perm|].
    apply unique_NoDup.
  - intros x. unfold sorted. rewrite stable_sort_in. apply unique_In.
Qed.

(** X3. Each selector offers "All" first and then the values of its column,
    each once, in ascending code point order.  No offered value leads to an
    empty selection on its own: choosing any of them, with the other
    widgets left at "All", keeps at least one row of a non-empty table. *)
Theorem options_cover_columns df :
  (exists tail, timeline_options df = "All" :: tail
                /\ StronglySorted str_lt tail
                /\ forall x, In x tail <-> In x (map (fun r => Timeline r) df))
  /\ (exists tail, status_options df = "All" :: tail
                   /\ StronglySorted str_lt tail
                   /\ forall x, In x tail <-> In x (map Status df))
  /\ (exists tail, stakeholder_options df = "All" :: tail
                   /\ StronglySorted str_lt tail
                   /\ forall x, In x tail <-> In x (map Requesting_Stakeholder df))
  /\ (df <> [] ->
      (forall o, In o (timeline_options df) ->
                 filtered_df df o ["All"] "All" <> [])
      /\ (forall o, In o (status_options df) ->
                    filtered_df df "All" [o] "All" <> [])
      /\ (forall o, In o (stakeholder_options df) ->
                    filtered_df df "All" ["All"] o <> [])).
Proof.
  split; [|split; [|split]].
  - destruct (options_spec (map (fun r => Timeline r) df)) as (tl & ? & ? & _ & ?).
    exists tl. auto.
  - destruct (options_spec (map Status df)) as (tl & ? & ? & _ & ?).
    exists tl. auto.
  - destruct (options_spec (map Requesting_Stakeholder df)) as (tl & ? & ? & _ & ?).
    exists tl. auto.
  - intros Hne.
    assert (Hkeep : forall (p : DerivedRequest number -> bool) r,
               In r df -> p r = true -> filter p df <> []).
    { intros p r Hr Hp Hnil.
      assert (Hin : In r (filter p df)) by (apply filter_In; auto).
      rewrite Hnil in Hin. exact Hin. }
    split; [|split]; intros o Ho.
    + destruct (options_spec (map (fun r => Timeline r) df)) as (tl & E & _ & _ & Hin).
      unfold timeline_options in Ho. rewrite E in Ho.
      unfold filtered_df. cbn.
      destruct (String.eqb_spec o "All") as [|Hno]; cbn; [assumption|].
      destruct Ho as [Ho|Ho]; [congruence|].
      apply Hin, in_map_iff in Ho as (r & <- & Hr).
      apply (Hkeep _ r Hr). apply String.eqb_refl.
    + destruct (options_spec (map Status df)) as (tl & E & _ & _ & Hin).
      unfold status_options in Ho. rewrite E in Ho.
      unfold filtered_df. cbn.
      destruct (String.eqb_spec o "All") as [|Hno]; cbn; [assumption|].
      destruct Ho as [Ho|Ho]; [congruence|].
      apply Hin, in_map_iff in Ho as (r & <- & Hr).
      apply (Hkeep _ r Hr). cbn. now rewrite String.eqb_refl.
    + destruct (options_spec (map Requesting_Stakeholder df)) as (tl & E & _ & _ & Hin).
      unfold stakeholder_options in Ho. rewrite E in Ho.
      unfold filtered_df. cbn.
      destruct (String.eqb_spec o "All") as [|Hno]; cbn; [assumption|].
      destruct Ho as [Ho|Ho]; [congruence|].
      apply Hin, in_map_iff in Ho as (r & <- & Hr).
      apply (Hkeep _ r Hr). apply String.eqb_refl.
Qed.

(** X4. The three status metrics are the counts the status distribution
    gives their labels, and together they never exceed the number of
    items. *)
Theorem status_metrics_agree f :
  budget_eval_count f = count_at (status_counts f) "Budget Evaluation"
  /\ evaluating_count f = count_at (status_counts f) "Evaluating"
  /\ in_progress_count f = count_at (status_counts f) "In Progress"
  /\ (budget_eval_count f + evaluating_count f + in_progress_count f
      <= total_items f)%nat
  /\ ((forall r, In r f -> In (Status r)
                              ["Budget Evaluation"; "Evaluating"; "In Progress"]) ->
      (budget_eval_count f + evaluating_count f + in_progress_count f)%nat
      = total_items f).
Proof.
  unfold budget_eval_count, evaluating_count, in_progress_count, status_counts,
    total_items.
  rewrite !status_metric_count, !value_counts_count_at.
  split; [reflexivity|]. split; [reflexivity|]. split; [reflexivity|]. split.
  - rewrite <- (length_map Status f). apply count_of_three; discriminate.
  - intros H. induction f as [|r f IH]; [reflexivity|].
    cbn [map count_of List.length].
    specialize (IH (fun x Hx => H x (or_intror Hx))).
    destruct (H r (or_introl eq_refl)) as [E|[E|[E|[]]]]; rewrite <- E; cbn; lia.
Qed.

End PageFacts.

Lemma options_cover_columns_witness :
  filtered_df [req_X; req_Y] "Q5 2099" ["All"] "All" <> []
  /\ filtered_df [req_X; req_Y] "All" [""] "All" <> [].
Proof.
  pose proof (options_cover_columns [req_X; req_Y]) as (_ & _ & _ & H).
  destruct H as (Ht & Hs & _); [discriminate|].
  split.
  - apply Ht. right; right; left; reflexivity.
  - apply Hs. right; left; reflexivity.
Defined.

Lemma status_metrics_agree_witness :
  (budget_eval_count [req_X] + evaluating_count [req_X]
   + in_progress_count [req_X])%nat = total_items [req_X].
Proof.
  apply (proj2 (proj2 (proj2 (proj2 (status_metrics_agree [req_X]))))).
  intros r [<-|[]]. right; right; left; reflexivity.
Defined.

Section ChartFacts.

Context {number : Type} {sorter : SortValues}.

Implicit Types (df f : list (DerivedRequest number)) (r : DerivedRequest number).

Lemma gantt_data_filter (p : DerivedRequest number -> bool)
    (q : GanttRow -> bool) f :
  (forall r s e,
      p r = q (mkGantt (task_label (Name r)) s e (Requesting_Stakeholder r)
                       (Status r) (Tool_Name r) (Timeline r) (Name r))) ->
  gantt_data (filter p f) = filter q (gantt_data f).
Proof.
  intros Hpq. induction f as [|r f IH]; [reflexivity|].
  rewrite gantt_data_cons. cbn [filter].
  destruct (p r) eqn:Hp.
  - rewrite gantt_data_cons.
    destruct (Start_Date r) as [s|], (End_Date r) as [e|]; try exact IH.
    cbn [filter]. rewrite <- (Hpq r s e), Hp. now rewrite IH.
  - destruct (Start_Date r) as [s|], (End_Date r) as [e|]; try exact IH.
    cbn [filter]. rewrite <- (Hpq r s e), Hp. exact IH.
Qed.

(** X5. Charting the selected rows gives the chart rows of the whole table
    that pass the same tests on their own fields: filtering and projecting
    commute. *)
Theorem gantt_data_of_filtered df t st h :
  gantt_data (filtered_df df t st h)
  = filter (fun g =>
              implb (negb (t =? "All")) (Timeline' g =? t)
              && implb (negb (str_in "All" st) && truthy st)
                       (str_in (Status' g) st)
              && implb (negb (h =? "All")) (Resource g =? h))
           (gantt_data df).
Proof.
  rewrite filtered_df_steps, !filter_twice.
  apply gantt_data_filter. intros r s e. cbn.
  unfold timeline_supplied, statuses_supplied, stakeholder_supplied.
  now rewrite andb_assoc.
Qed.

(** X6. With a quarter selected, the quarterly distribution of a non-empty
    selection is the single line of that quarter with all items; with a
    stakeholder selected, the stakeholder breakdown is the single bar of
    that stakeholder. *)
Theorem single_entry_distributions df t st h :
  filtered_df df t st h <> [] ->
  (t <> "All" ->
   quarter_dist (filtered_df df t st h)
   = [(t, total_items (filtered_df df t st h))])
  /\ (h <> "All" ->
      stakeholder_counts (filtered_df df t st h)
      = [(h, total_items (filtered_df df t st h))]).
Proof.
  intros Hne.
  assert (Hmap : forall (A : Type) (g : DerivedRequest number -> A) l,
             l <> [] -> map g l <> []).
  { intros A g [|a l] H; [contradiction|discriminate]. }
  split; intros Hsel.
  - unfold quarter_dist, total_items.
    rewrite (value_counts_constant t).
    + now rewrite length_map.
    + now apply Hmap.
    + intros x Hx. apply in_map_iff in Hx as (r & <- & Hr).
      rewrite filtered_df_steps in Hr.
      apply filter_In in Hr as [Hr _]. apply filter_In in Hr as [Hr _].
      apply filter_In in Hr as [_ Hr].
      unfold timeline_supplied in Hr.
      apply String.eqb_neq in Hsel. rewrite Hsel in Hr. cbn in Hr.
      now apply String.eqb_eq.
  - unfold stakeholder_counts, total_items.
    rewrite (value_counts_constant h).
    + now rewrite length_map.
    + now apply Hmap.
    + intros x Hx. apply in_map_iff in Hx as (r & <- & Hr).
      rewrite filtered_df_steps in Hr.
      apply filter_In in Hr as [_ Hr].
      unfold stakeholder_supplied in Hr.
      apply String.eqb_neq in Hsel. rewrite Hsel in Hr. cbn in Hr.
      now apply String.eqb_eq.
Qed.

End ChartFacts.

Lemma single_entry_distributions_witness :
  quarter_dist (filtered_df [req_X; req_Y; req_late] "Q4 2025" ["All"] "All")
  = [("Q4 2025", 1%nat)].
Proof.
  apply (proj1 (single_entry_distributions [req_X; req_Y; req_late]
                  "Q4 2025" ["All"] "All" ltac:(discriminate))).
  discriminate.
Defined.

(** ** The timeline figure *)

Lemma str_in_app (x : string) (l1 l2 : list string) :
  str_in x (l1 ++ l2) = str_in x l1 || str_in x l2.
Proof.
  induction l1 as [|y l1 IH]; cbn; [reflexivity|].
  now rewrite IH, orb_assoc.
Qed.

Lemma index_of_some (x : string) (l : list string) :
  In x l -> exists k, index_of x l = Some k /\ (k < List.length l)%nat.
Proof.
  intros Hx. destruct (index_of x l) as [k|] eqn:E.
  - exists k. split; [reflexivity|].
    apply index_of_nth in E. apply nth_error_Some. congruence.
  - apply index_of_none in E. contradiction.
Qed.

Lemma dict_get_combine {V : Type} (u : list string) (p : list V) (r : string) :
  dict_get (combine u p) r
  = match index_of r u with
    | Some k => nth_error p k
    | None => None
    end.
Proof.
  revert p. induction u as [|a u IH]; intros p; [reflexivity|].
  destruct p as [|c p]; cbn.
  - destruct (a =? r); [reflexivity|].
    destruct (index_of r u) as [k|]; cbn; [now destruct k|reflexivity].
  - destruct (a =? r); [reflexivity|]. rewrite IH.
    destruct (index_of r u); reflexivity.
Qed.

Lemma nth_error_default {V : Type} (l : list V) (k : nat) (d : V) :
  match nth_error l k with Some c => c | None => d end = nth k l d.
Proof.
  revert k. induction l as [|a l IH]; intros [|k]; cbn; auto.
Qed.

Lemma trace_color (Set3 : list string) (g : list GanttRow) (idx : nat)
    (row : GanttRow) (k : nat) :
  index_of (Resource row) (stakeholders g) = Some k ->
  trace_fillcolor (trace Set3 g idx row) = nth k Set3 "#1f77b4".
Proof.
  intros Hk. cbn. unfold color_map, colors.
  rewrite dict_get_combine, Hk, nth_error_firstn.
  assert (Hlt : (k < List.length (stakeholders g))%nat).
  { apply index_of_nth in Hk. apply nth_error_Some. congruence. }
  apply Nat.ltb_lt in Hlt. rewrite Hlt. apply nth_error_default.
Qed.

(** X7. Every bar is filled and outlined in the palette color at the
    position of its stakeholder among the stakeholders in order of first
    appearance, and in "#1f77b4" once the palette is used up.  When the
    palette has no repeated color and is long enough, two bars have the same
    color exactly when they have the same stakeholder. *)
Theorem trace_colors_by_stakeholder (Set3 : list string) (g : list GanttRow) :
  (forall idx row, In row g ->
     exists k, index_of (Resource row) (stakeholders g) = Some k
               /\ (k < List.length (stakeholders g))%nat
               /\ trace_fillcolor (trace Set3 g idx row) = nth k Set3 "#1f77b4"
               /\ trace_line (trace Set3 g idx row)
                  = trace_fillcolor (trace Set3 g idx row)
               /\ ((List.length Set3 <= k)%nat ->
                   trace_fillcolor (trace Set3 g idx row) = "#1f77b4"))
  /\ (NoDup Set3 ->
      (List.length (stakeholders g) <= List.length Set3)%nat ->
      forall i j a b, In a g -> In b g ->
        (trace_fillcolor (trace Set3 g i a) = trace_fillcolor (trace Set3 g j b)
         <-> Resource a = Resource b)).
Proof.
  assert (Hres : forall row, In row g -> In (Resource row) (stakeholders g)).
  { intros row Hrow. apply unique_In, in_map, Hrow. }
  split.
  - intros idx row Hrow.
    destruct (index_of_some _ _ (Hres row Hrow)) as (k & Hk & Hlt).
    exists k. split; [assumption|]. split; [assumption|].
    split; [now apply trace_color|]. split; [reflexivity|].
    intros Hlen. rewrite (trace_color _ _ _ _ _ Hk). now apply nth_overflow.
  - intros Hnd Hlen i j a b Ha Hb.
    destruct (index_of_some _ _ (Hres a Ha)) as (ka & Hka & Hlta).
    destruct (index_of_some _ _ (Hres b Hb)) as (kb & Hkb & Hltb).
    rewrite (trace_color _ _ _ _ _ Hka), (trace_color _ _ _ _ _ Hkb).
    split.
    + intros Heq.
      assert (ka = kb)
        by (apply (proj1 (NoDup_nth Set3 "#1f77b4") Hnd); [lia|lia|exact Heq]).
      subst kb. apply index_of_nth in Hka, Hkb. congruence.
    + intros Heq. rewrite Heq in Hka. congruence.
Qed.

Lemma trace_loop_legend (Set3 : list string) (p rows : list GanttRow) :
  map trace_name
      (filter trace_showlegend
              (trace_loop Set3 (p ++ rows) (List.length p) rows))
  = filter (fun y => negb (str_in y (map Resource p)))
           (unique (map Resource rows)).
Proof.
  revert p. induction rows as [|a rows IH]; intros p; [reflexivity|].
  cbn [trace_loop filter map unique].
  assert (Hshow : trace_showlegend (trace Set3 (p ++ a :: rows) (List.length p) a)
                  = negb (str_in (Resource a) (map Resource p))).
  { cbn. rewrite firstn_app, Nat.sub_diag, firstn_all. cbn [firstn].
    rewrite app_nil_r.
    destruct p; [reflexivity|]. reflexivity. }
  rewrite Hshow.
  assert (Hrest : map trace_name
                      (filter trace_showlegend
                              (trace_loop Set3 (p ++ a :: rows)
                                          (S (List.length p)) rows))
                  = filter (fun y => negb (str_in y (map Resource p)))
                           (filter (fun y => negb (y =? Resource a))
                                   (unique (map Resource rows)))).
  { replace (p ++ a :: rows)%list with ((p ++ [a]) ++ rows)%list
      by (now rewrite <- app_assoc).
    replace (S (List.length p)) with (List.length (p ++ [a]))
      by (rewrite length_app; cbn; lia).
    rewrite IH, filter_twice. apply filter_ext. intros y.
    rewrite map_app, str_in_app. cbn.
    rewrite orb_false_r, negb_orb, (String.eqb_sym (Resource a) y).
    apply andb_comm. }
  destruct (negb (str_in (Resource a) (map Resource p)));
    cbn [map]; now rewrite Hrest.
Qed.

Lemma trace_loop_rows (Set3 : list string) (g rows : list GanttRow) (idx : nat) :
  map trace_band (trace_loop Set3 g idx rows) = seq idx (List.length rows)
  /\ map trace_name (trace_loop Set3 g idx rows) = map Resource rows
  /\ map trace_x (trace_loop Set3 g idx rows)
     = map (fun r => [Start r; Finish r; Finish r; Start r; Start r]) rows.
Proof.
  revert idx. induction rows as [|a rows IH]; intros idx; cbn; [auto|].
  destruct (IH (S idx)) as (-> & -> & ->). auto.
Qed.

(** X8. The legend names every stakeholder of the chart exactly once, in
    the order of first appearance: a bar shows its legend entry exactly when
    no earlier bar has its stakeholder. *)
Theorem legend_once_per_stakeholder (Set3 : list string) (g : list GanttRow) :
  map trace_name (filter trace_showlegend (trace_loop Set3 g 0 g))
  = stakeholders g
  /\ NoDup (map trace_name (filter trace_showlegend (trace_loop Set3 g 0 g)))
  /\ forall row, In row g ->
       In (Resource row)
          (map trace_name (filter trace_showlegend (trace_loop Set3 g 0 g))).
Proof.
  assert (H : map trace_name (filter trace_showlegend (trace_loop Set3 g 0 g))
              = stakeholders g).
  { pose proof (trace_loop_legend Set3 [] g) as E. cbn in E. rewrite E.
    apply filter_all. reflexivity. }
  rewrite H. split; [reflexivity|]. split; [apply unique_NoDup|].
  intros row Hrow. apply unique_In, in_map, Hrow.
Qed.

(** X9. The figure exists exactly when there is a chart row.  It has one
    bar per chart row, in order: bar [i] lies at height [i], spans the dates
    of row [i] and is named after its stakeholder, and the tick at [i]
    carries the label of row [i].  Its height is 40 per row and at least
    400. *)
Theorem timeline_figure_layout (Set3 : list string) (g : list GanttRow) :
  (timeline_figure Set3 g = None <-> g = [])
  /\ forall fig, timeline_figure Set3 g = Some fig ->
       map trace_band (fig_data fig) = fig_tickvals fig
       /\ fig_tickvals fig = seq 0 (List.length g)
       /\ fig_ticktext fig = map Task g
       /\ map trace_name (fig_data fig) = map Resource g
       /\ map trace_x (fig_data fig)
          = map (fun r => [Start r; Finish r; Finish r; Start r; Start r]) g
       /\ (400 <= fig_height fig)%nat
       /\ (40 * List.length g <= fig_height fig)%nat
       /\ ((List.length g <= 10)%nat -> fig_height fig = 400%nat)
       /\ ((10 <= List.length g)%nat ->
           fig_height fig = (40 * List.length g)%nat).
Proof.
  split.
  - destruct g; cbn [timeline_figure]; split; intros H;
      (reflexivity || discriminate).
  - intros fig Hfig.
    assert (fig = mkFigure (trace_loop Set3 g 0 g)
                           (Nat.max 400 (List.length g * 40))
                           (seq 0 (List.length g)) (map Task g)) as ->.
    { destruct g; cbn [timeline_figure] in Hfig; [discriminate|].
      now injection Hfig as <-. }
    cbn [fig_data fig_tickvals fig_ticktext fig_height].
    destruct (trace_loop_rows Set3 g g 0) as (-> & -> & ->).
    repeat split; lia.
Qed.

Lemma trace_colors_by_stakeholder_witness :
  trace_fillcolor
    (trace ["red"; "blue"] (gantt_data [req_X; req_late; req_next]) 0
           (mkGantt "X" (mkdate 2024 12 31) (mkdate 2025 3 31) "Legal"
                    "In Progress" "Drafter" "Q1 2025" "X"))
  = trace_fillcolor
      (trace ["red"; "blue"] (gantt_data [req_X; req_late; req_next]) 1
             (mkGantt "Late" (mkdate 2025 9 30) (mkdate 2025 12 31) "Legal"
                      "Planning" "Drafter" "Q4 2025" "Late")).
Proof.
  apply (proj2 (trace_colors_by_stakeholder ["red"; "blue"]
                  (gantt_data [req_X; req_late; req_next]))).
  - repeat constructor; cbn; intuition discriminate.
  - apply Nat.leb_le. reflexivity.
  - left; reflexivity.
  - right; left; reflexivity.
  - reflexivity.
Defined.

Lemma timeline_figure_layout_witness :
  exists fig,
    timeline_figure ["red"; "blue"] (gantt_data [req_X; req_late; req_next])
    = Some fig
    /\ fig_height fig = 400%nat.
Proof.
  eexists. split; [reflexivity|].
  refine (proj1 (proj2 (proj2 (proj2 (proj2 (proj2 (proj2 (proj2
            (proj2 (timeline_figure_layout ["red"; "blue"]
                      (gantt_data [req_X; req_late; req_next])) _ eq_refl))))))))
            _).
  apply Nat.leb_le. reflexivity.
Defined.

(** ** Strings *)


Lemma rstrip_head (a : ascii) (s : string) :
  isspace a = false -> exists u, rstrip (String a s) = String a u.
Proof.
  intros Ha. cbn. destruct (rstrip s); [rewrite Ha|]; eauto.
Qed.


Lemma rstrip_cons (a : ascii) (s : string) :
  rstrip (String a s)
  = match rstrip s with
    | "" => if isspace a then "" else String a ""
    | u => String a u
    end.
Proof. reflexivity. Qed.

Lemma rstrip_idempotent (s : string) : rstrip (rstrip s) = rstrip s.
Proof.
  induction s as [|a s IH]; [reflexivity|].
  rewrite rstrip_cons. destruct (rstrip s) as [|b u] eqn:E.
  - destruct (isspace a) eqn:Ea; [reflexivity|].
    rewrite rstrip_cons. cbn [rstrip]. now rewrite Ea.
  - rewrite rstrip_cons, IH. reflexivity.
Qed.

Lemma lstrip_head (s : string) :
  lstrip s = "" \/ exists a t, lstrip s = String a t /\ isspace a = false.
Proof.
  induction s as [|b s IH]; cbn; [now left|].
  destruct (isspace b) eqn:Eb; [exact IH|].
  right. eauto.
Qed.

Lemma strip_idempotent (s : string) : strip (strip s) = strip s.
Proof.
  unfold strip. destruct (lstrip_head s) as [->|(a & t & -> & Ha)];
    [reflexivity|].
  destruct (rstrip_head a t Ha) as (u & Hu).
  assert (Hl : lstrip (rstrip (String a t)) = rstrip (String a t)).
  { rewrite Hu. cbn. now rewrite Ha. }
  rewrite Hl. apply rstrip_idempotent.
Qed.

(** ** More on ingest and derive *)

Section FrameFacts.

Context {number : Type} {numeric : Numeric number}.


(** X11. In the frame that ingest returns every label is trimmed, and no
    cell is missing in a column read from the sheet, that is, under a label
    that is none of the computed ones (the computed [End_Date], [Start_Date]
    and [Priority_Numeric] can be undefined).  The frame has at most as many
    rows as the sheet, holds the four labels ingest looks up, and has at
    most one column labelled 'Timeline' and one labelled 'End_Date'. *)
Theorem frame_is_clean (sh : Sheet number) (df : DataFrame number) :
  process sh = Ok df ->
  (forall label, In label (columns df) -> strip label = label)
  /\ (forall r j label c,
        In r (rows df) ->
        nth_error (columns df) j = Some label ->
        ~ In label computed_labels ->
        nth_error (cells r) j = Some c ->
        c <> NaN)
  /\ (List.length (rows df) <= List.length (body sh))%nat
  /\ In "Name" (columns df) /\ In "Quarter Date" (columns df)
  /\ In "Status" (columns df) /\ In "Total Priority Score" (columns df)
  /\ (count_of "Timeline" (columns df) <= 1)%nat
  /\ (count_of "End_Date" (columns df) <= 1)%nat.
Proof.
  intros Hp.
  destruct (process_ok sh df Hp)
    as (i & iq & ist & isc & Hn & _ & Hq & Hst & Hsc & Ht & He & ->).
  cbn [columns rows]. split; [|split; [|split]].
  - intros label Hl. apply in_map_iff in Hl as (l0 & <- & _).
    apply strip_idempotent.
  - intros r j label c Hr _ _ Hc. apply nth_error_In in Hc.
    apply in_map_iff in Hr as (r0 & <- & Hr0).
    cbn [cells] in Hc. apply in_map_iff in Hr0 as (r1 & <- & _).
    apply in_map_iff in Hc as (c0 & <- & _). now destruct c0.
  - rewrite !length_map, clean_names_named. apply filter_length_le.
  - assert (Hone : forall label,
               assigned (map strip (header sh)) label = Ok tt ->
               (count_of label (map strip (header sh)) <= 1)%nat).
    { intros label. unfold assigned.
      destruct (Nat.leb_spec 2 (count_of label (map strip (header sh))));
        [discriminate|lia]. }
    repeat split; try (eapply getitem_in; eassumption); try now apply Hone.
    apply getitem_in in Hn. now apply (in_map strip) in Hn.
Qed.

(** X12. The color of a row is always one of the seven colors of the
    table, and it is the gray "#D3D3D3" exactly when the status is none of
    the six named statuses. *)
Theorem color_is_enumerated (quarter_date status score : Cell number) :
  In (Color (derive quarter_date status score))
     ["#FFA500"; "#87CEEB"; "#32CD32"; "#228B22"; "#FF6347"; "#9370DB";
      "#D3D3D3"]
  /\ (Color (derive quarter_date status score) = "#D3D3D3"
      <-> ~ exists s, status = Str s
                      /\ In s ["Budget Evaluation"; "Evaluating"; "In Progress";
                               "Completed"; "On Hold"; "Planning"]).
Proof.
  rewrite derive_color. unfold map_dict.
  destruct status as [|s|x].
  - split; [cbn; tauto|]. split; [intros _ (s & [=] & _)|reflexivity].
  - destruct (dict_get status_colors s) as [c|] eqn:E.
    + apply dict_get_in in E. unfold status_colors in E. cbn [In] in E.
      repeat (destruct E as [E|E];
              [injection E as <- <-;
               split; [cbn; tauto|];
               split; [try discriminate|]|]);
        try (intros H; exfalso; apply H; eexists; split;
             [reflexivity|cbn; tauto]).
      * intros _ (s & [= <-] & Hs). cbn in Hs. intuition discriminate.
      * reflexivity.
      * destruct E.
    + split; [cbn; tauto|]. split; [|reflexivity].
      intros _ (s' & [= <-] & Hs). cbn [In] in Hs.
      repeat (destruct Hs as [<-|Hs]; [discriminate E|]). exact Hs.
  - split; [cbn; tauto|]. split; [intros _ (s & [=] & _)|reflexivity].
Qed.

(** X13. [End_Date] is defined exactly when [Timeline] is one of the eight
    labels of the quarter table, and [Start_Date] exactly when [End_Date]
    is: a request derived from its cells is charted exactly when its quarter
    is recognized. *)
Theorem dates_defined_iff_recognized (quarter_date status score : Cell number)
    (name stakeholder tool st : string) :
  let d := derive quarter_date status score in
  (End_Date d <> None
   <-> In (Timeline d) ["Q1 2025"; "Q2 2025"; "Q3 2025"; "Q4 2025";
                        "Q1 2026"; "Q2 2026"; "Q3 2026"; "Q4 2026"])
  /\ (Start_Date d <> None <-> End_Date d <> None)
  /\ (has_dates (mkRequest name stakeholder tool st d) = true
      <-> End_Date d <> None).
Proof.
  intros d.
  assert (Hstart : Start_Date d = option_map (fun e => sub_months e 3) (End_Date d))
    by reflexivity.
  split; [|split].
  - subst d. rewrite derive_end_date.
    change (Timeline (derive quarter_date status score))
      with (astype_str quarter_date).
    unfold to_datetime. split.
    + destruct (dict_get quarter_mapping (astype_str quarter_date)) as [iso|] eqn:E;
        [intros _|congruence].
      apply dict_get_in in E. unfold quarter_mapping in E. cbn [In] in E |- *.
      repeat (destruct E as [E|E]; [injection E as <- _; tauto|]).
      destruct E.
    + intros H. cbn [In] in H.
      repeat (destruct H as [<-|H]; [vm_compute; discriminate|]).
      destruct H.
  - rewrite Hstart. destruct (End_Date d); cbn; split; congruence.
  - unfold has_dates. cbn [computed]. rewrite Hstart.
    destruct (End_Date d); cbn; split; congruence.
Qed.

(** X14. When ingest succeeds, the page reports "Could not load data"
    exactly when no row of the sheet has a usable name. *)
Theorem could_not_load_iff (sh : Sheet number) (df : DataFrame number)
    (i_name : nat) :
  process sh = Ok df ->
  getitem (header sh) "Name" = Ok i_name ->
  (could_not_load (Some df) = true
   <-> forall r, In r (body sh) -> named (cell i_name r) = false)
  /\ could_not_load (number := number) None = true.
Proof.
  intros Hp Hn. split; [|reflexivity].
  destruct (process_ok sh df Hp)
    as (i & iq & ist & isc & Hn' & _ & _ & _ & _ & _ & _ & ->).
  rewrite Hn in Hn'. injection Hn' as <-.
  unfold could_not_load. cbn [rows columns].
  assert (Hcols : truthy (map strip (header sh)) = true).
  { apply getitem_in in Hn. destruct (header sh); [destruct Hn|reflexivity]. }
  rewrite Hcols, orb_false_r, clean_names_named.
  split.
  - intros H r Hr. destruct (named (cell i_name r)) eqn:E; [|reflexivity].
    assert (Hin : In r (filter (fun r => named (cell i_name r)) (body sh)))
      by (apply filter_In; auto).
    destruct (filter (fun r => named (cell i_name r)) (body sh));
      [destruct Hin|discriminate].
  - intros H. rewrite filter_none; [reflexivity|exact H].
Qed.

Lemma series_get_in (row : list (string * Cell number)) (label : string)
    (c : Cell number) :
  NoDup (map fst row) -> In (label, c) row -> series_get row label = Ok c.
Proof.
  induction row as [|[l d] row IH]; cbn; [tauto|].
  intros Hnd [H|H].
  - injection H as -> ->. now rewrite String.eqb_refl.
  - inversion Hnd as [|? ? Hl Hnd']; subst.
    destruct (String.eqb_spec l label) as [->|]; [|auto].
    exfalso. apply Hl. apply in_map_iff. now exists (label, c).
Qed.

Lemma series_get_absent (row : list (string * Cell number)) (label : string) :
  ~ In label (map fst row) -> series_get row label = Raise (KeyError label).
Proof.
  induction row as [|[l d] row IH]; cbn; [reflexivity|].
  intros H. destruct (String.eqb_spec l label) as [->|]; [tauto|].
  apply IH. tauto.
Qed.

(** X15. On a row with distinct labels whose 'Status' entry is [status],
    [highlight_status] gives every cell of the row the same style.  The
    style is empty exactly when the status is none of the six named
    statuses, and every status it styles has its own color in the color
    table.  On a row without a 'Status' entry it raises
    [KeyError "Status"]. *)
Theorem highlight_status_styles (row : list (string * Cell number)) :
  (forall status,
     NoDup (map fst row) -> In ("Status", status) row ->
     exists style,
       highlight_status row = Ok (repeat style (List.length row))
       /\ (style = ""
           <-> ~ exists s, status = Str s
                   /\ In s ["Budget Evaluation"; "Evaluating"; "In Progress";
                            "Completed"; "On Hold"; "Planning"])
       /\ (style <> "" ->
           exists s c, status = Str s /\ dict_get status_colors s = Some c
                       /\ c <> "#D3D3D3"))
  /\ (~ In "Status" (map fst row) ->
      highlight_status row = Raise (KeyError "Status")).
Proof.
  split.
  - intros status Hnd Hin. unfold highlight_status.
    rewrite (series_get_in row "Status" status Hnd Hin). cbn [bind].
    eexists. split; [reflexivity|]. unfold map_dict.
    destruct status as [|s|x].
    + split; [split; [intros _ (s & [=] & _)|reflexivity]|congruence].
    + destruct (dict_get highlight_colors s) as [c|] eqn:E.
      * apply dict_get_in in E. unfold highlight_colors in E. cbn [In] in E.
        repeat (destruct E as [E|E];
                [injection E as <- <-;
                 split;
                 [split; [discriminate|];
                  intros H; exfalso; apply H; eexists; split;
                  [reflexivity|cbn; tauto]
                 |intros _; eexists; eexists; split; [reflexivity|];
                  split; [reflexivity|discriminate]]|]).
        destruct E.
      * split; [split; [|reflexivity]|congruence].
        intros _ (s' & [= <-] & Hin'). cbn [In] in Hin'.
        repeat (destruct Hin' as [<-|Hin']; [discriminate E|]). exact Hin'.
    + split; [split; [intros _ (s & [=] & _)|reflexivity]|congruence].
  - intros Habs. unfold highlight_status.
    now rewrite (series_get_absent row "Status" Habs).
Qed.

End FrameFacts.


Lemma frame_is_clean_witness :
  exists df, process sample_sheet = Ok df
             /\ (List.length (rows df) <= 4)%nat
             /\ forall r c, In r (rows df) ->
                  nth_error (cells r) 4 = Some c -> c <> NaN.
Proof.
  destruct (process sample_sheet) as [df|e] eqn:E; [|discriminate].
  exists df.
  pose proof (frame_is_clean sample_sheet df E) as (_ & Hcell & Hlen & _).
  split; [reflexivity|]. split; [exact Hlen|].
  intros r c Hr Hc. apply (Hcell r 4%nat "Status" c Hr); [|cbn|exact Hc].
  - injection E as <-. reflexivity.
  - intuition discriminate.
Defined.

Lemma could_not_load_iff_witness :
  exists df, process (mkSheet roadmap_header [row_blank; row_missing]) = Ok df
             /\ could_not_load (Some df) = true.
Proof.
  destruct (process (mkSheet roadmap_header [row_blank; row_missing]))
    as [df|e] eqn:E; [|discriminate].
  exists df. split; [reflexivity|].
  apply (proj1 (could_not_load_iff _ df 0%nat E eq_refl)).
  intros r [<-|[<-|[]]]; reflexivity.
Defined.

Lemma highlight_status_styles_witness :
  (exists style,
     highlight_status [("Name", Str "X"); ("Status", Str (number:=Z) "Archived")]
     = Ok [style; style]
     /\ style = "")
  /\ highlight_status [("Name", Str (number:=Z) "X")] = Raise (KeyError "Status").
Proof.
  pose proof (highlight_status_styles
                [("Name", Str "X"); ("Status", Str (number:=Z) "Archived")])
    as (Hstyle & _).
  pose proof (highlight_status_styles [("Name", Str (number:=Z) "X")])
    as (_ & Hraise).
  split.
  - destruct (Hstyle (Str "Archived")) as (style & Hs & Hempty & _).
    + cbn. repeat constructor; cbn; intuition discriminate.
    + right; left; reflexivity.
    + exists style. split; [exact Hs|].
      apply Hempty. intros (s & [= <-] & Hin).
      cbn in Hin. intuition discriminate.
  - apply Hraise. cbn. intuition discriminate.
Defined.
